(** * FullStack-TaskManager: the task routes of the Express backend

    A shallow embedding of [server/routes/taskRoutes.js]: the five task
    handlers (POST /, GET /, PUT /:id, DELETE /:id, POST /suggest) over

    - JavaScript values as they arrive in a parsed JSON request body,
      with truthiness, [||], property reads and the [> 0] comparison;
    - the [Task] collection as the list of its documents, threaded through
      the handlers as explicit state;
    - the outbound [fetch] of the suggestion endpoint as an event of a small
      free monad, run against an arbitrary network.

    The Mongoose schema [models/Task.js] and the middleware
    [middleware/authMiddleware.js] are not part of the sources at hand.  The
    schema enters as a parameter ([Model]); the middleware's result, the id
    in [req.user.id], is an argument of every handler.

    Two neighbours of the routes are embedded as well: the origin function
    and the error handler of [server.js], and [handleSubmit] of the
    client's sign-in form [AuthForm.jsx], whose requests go through the
    same [fetch] event. *)

From Stdlib Require Import ZArith List String Ascii Bool Lia.
From Stdlib Require Import Permutation Sorted DecimalString.
Import ListNotations.

Local Open Scope string_scope.
Local Open Scope Z_scope.
Local Open Scope list_scope.

#[local] Set Warnings "-register-all".

(* ================================================================== *)
(** * JavaScript values *)
(* ================================================================== *)

(** JSON-shaped JavaScript values.  Numbers are integers: the handlers only
    test a number for being zero and compare a length with [0]. *)
Inductive jsval : Type :=
| JUndefined
| JNull
| JBool (b : bool)
| JNum (n : Z)
| JStr (s : string)
| JArr (elems : list jsval)
| JObj (props : list (string * jsval)).

(** A JSON object as the list of its properties. *)
Definition JsObject := list (string * jsval).

(** Errors a handler can catch.  [message] is [err.message]; [kind] is the
    [err.kind] that Mongoose puts on a CastError. *)
Inductive Error : Type :=
| TypeError (msg : string)
| SyntaxError (msg : string)
| PlainError (msg : string)
| FetchError (msg : string)
| CastError (knd : string)
| ValidationError (msg : string).

Definition message (e : Error) : string :=
  match e with
  | TypeError m | SyntaxError m | PlainError m | FetchError m
  | ValidationError m => m
  | CastError k => "Cast to " ++ k ++ " failed"
  end.

Definition kind (e : Error) : option string :=
  match e with
  | CastError k => Some k
  | _ => None
  end.

(** Results of code that may throw. *)
Inductive result (A : Type) : Type :=
| Ok (a : A)
| Throw (e : Error).
Arguments Ok {A} a.
Arguments Throw {A} e.

Definition bind {A B : Type} (r : result A) (k : A -> result B) : result B :=
  match r with
  | Ok a => k a
  | Throw e => Throw e
  end.

Notation "x <- r ;; k" := (bind r (fun x => k))
  (at level 61, r at next level, right associativity).

(** [!!v]: the falsy values are undefined, null, false, 0 and the empty
    string. *)
Definition truthy (v : jsval) : bool :=
  match v with
  | JUndefined | JNull => false
  | JBool b => b
  | JNum n => negb (n =? 0)
  | JStr s => negb (String.eqb s EmptyString)
  | JArr _ | JObj _ => true
  end.

(** [a || b] *)
Definition js_or (a b : jsval) : jsval := if truthy a then a else b.

(** Own property of an object; an absent property reads as undefined. *)
Fixpoint lookup (k : string) (ps : JsObject) : jsval :=
  match ps with
  | [] => JUndefined
  | (k', v) :: ps' => if String.eqb k k' then v else lookup k ps'
  end.

Definition str_length (s : string) : Z := Z.of_nat (String.length s).

Definition index_key (i : nat) : string :=
  NilZero.string_of_uint (Nat.to_uint i).

(** [v.name], for a property name other than an array index.  Reading a
    property of undefined or null throws; arrays and strings have a
    [length]; numbers and booleans have none of the names the handlers
    read. *)
Definition get_prop (v : jsval) (name : string) : result jsval :=
  match v with
  | JUndefined =>
      Throw (TypeError ("Cannot read properties of undefined (reading '"
                          ++ name ++ "')"))
  | JNull =>
      Throw (TypeError ("Cannot read properties of null (reading '"
                          ++ name ++ "')"))
  | JObj ps => Ok (lookup name ps)
  | JArr l =>
      Ok (if String.eqb name "length" then JNum (Z.of_nat (List.length l))
          else JUndefined)
  | JStr s =>
      Ok (if String.eqb name "length" then JNum (str_length s)
          else JUndefined)
  | JBool _ | JNum _ => Ok JUndefined
  end.

(** [v[i]] *)
Definition get_index (v : jsval) (i : nat) : result jsval :=
  match v with
  | JUndefined =>
      Throw (TypeError ("Cannot read properties of undefined (reading '"
                          ++ index_key i ++ "')"))
  | JNull =>
      Throw (TypeError ("Cannot read properties of null (reading '"
                          ++ index_key i ++ "')"))
  | JObj ps => Ok (lookup (index_key i) ps)
  | JArr l => Ok (nth i l JUndefined)
  | JStr s =>
      Ok (match String.get i s with
          | Some c => JStr (String c EmptyString)
          | None => JUndefined
          end)
  | JBool _ | JNum _ => Ok JUndefined
  end.

(** The built-ins of the language that the suggestion handler relies on and
    whose full definition involves floating point or a grammar of its own:
    [String(v)], the comparison of a numeric string with zero, and
    [JSON.parse] on a string. *)
Record Engine : Type := {
  ToString : jsval -> string;
  StringToNumber_gt0 : string -> bool;
  JSON_parse : string -> result jsval
}.

(** [v > 0]: the operand is converted to a number first. *)
Definition js_gt0 (E : Engine) (v : jsval) : bool :=
  match v with
  | JNum n => 0 <? n
  | JBool b => b
  | JNull | JUndefined => false
  | JStr s => StringToNumber_gt0 E s
  | JArr _ | JObj _ => StringToNumber_gt0 E (ToString E v)
  end.

Definition is_array (v : jsval) : bool :=
  match v with
  | JArr _ => true
  | _ => false
  end.

(** Deep equality of values. *)
Fixpoint jsval_eqb (a b : jsval) : bool :=
  match a, b with
  | JUndefined, JUndefined => true
  | JNull, JNull => true
  | JBool x, JBool y => Bool.eqb x y
  | JNum x, JNum y => x =? y
  | JStr x, JStr y => String.eqb x y
  | JArr xs, JArr ys =>
      (fix go (xs ys : list jsval) : bool :=
         match xs, ys with
         | [], [] => true
         | x :: xs', y :: ys' => jsval_eqb x y && go xs' ys'
         | _, _ => false
         end) xs ys
  | JObj ps, JObj qs =>
      (fix go (ps qs : JsObject) : bool :=
         match ps, qs with
         | [], [] => true
         | (k, x) :: ps', (k', y) :: qs' =>
             String.eqb k k' && jsval_eqb x y && go ps' qs'
         | _, _ => false
         end) ps qs
  | _, _ => false
  end.

(* ================================================================== *)
(** * The Task collection *)
(* ================================================================== *)

(** Modelled from the spec: the paths of a Task document, whose schema
    [models/Task.js] is not among the sources.  The spec lists them: owner
    reference (User id), title, description, priority, due date (nullable),
    status, timestamps.  ObjectIds ([_id], [user]) are held as their
    24-digit hexadecimal strings, the form in which [task.user.toString()]
    and the id in [req.user.id] are compared.  The other paths hold the
    value that was assigned to them.  [createdAt] and [updatedAt] are
    instants in milliseconds. *)
Record Task : Type := mkTask {
  _id : string;
  user : string;
  title : jsval;
  description : jsval;
  priority : jsval;
  dueDate : jsval;
  status : jsval;
  createdAt : Z;
  updatedAt : Z
}.

(** The collection: its documents, oldest insertion first. *)
Definition Collection := list Task.

Definition Task_eqb (a b : Task) : bool :=
  String.eqb (_id a) (_id b) && String.eqb (user a) (user b)
  && jsval_eqb (title a) (title b)
  && jsval_eqb (description a) (description b)
  && jsval_eqb (priority a) (priority b)
  && jsval_eqb (dueDate a) (dueDate b)
  && jsval_eqb (status a) (status b)
  && (createdAt a =? createdAt b) && (updatedAt a =? updatedAt b).

(** What the absent schema and the database driver decide, as parameters.
    The spec says nothing about the defaults and validators of the paths:
    [default_of p] is the value the schema gives path [p] when a document
    is built without it (undefined when the path has no default), and
    [accepts old t] tells whether [save()] of document [t] passes the
    schema's casts and validators, [old] being the stored state of the
    document ([None] for a new one).  [castObjectId] is the cast that
    Mongoose applies to the id of a query: the ObjectId that the string
    denotes, or nothing when it denotes none, in which case the query
    throws a CastError of kind ObjectId. *)
Record Model : Type := {
  castObjectId : string -> option string;
  default_of : string -> jsval;
  accepts : option Task -> Task -> bool
}.

(** What a request takes from its surroundings: the clock and the ObjectId
    generator. *)
Record Env : Type := {
  now : Z;
  fresh_id : string
}.

Definition has_id (oid : string) (t : Task) : bool := String.eqb (_id t) oid.

Definition owned_by (uid : string) (t : Task) : bool :=
  String.eqb (user t) uid.

(** [Task.findById(id)] *)
Definition findById (M : Model) (id : string) (db : Collection)
  : result (option Task) :=
  match castObjectId M id with
  | None => Throw (CastError "ObjectId")
  | Some oid => Ok (find (has_id oid) db)
  end.

Fixpoint remove_first (p : Task -> bool) (db : Collection) : Collection :=
  match db with
  | [] => []
  | t :: db' => if p t then db' else t :: remove_first p db'
  end.

Fixpoint replace_first (p : Task -> bool) (t' : Task) (db : Collection)
  : Collection :=
  match db with
  | [] => []
  | t :: db' => if p t then t' :: db' else t :: replace_first p t' db'
  end.

(** [Task.deleteOne({ _id: id })] *)
Definition deleteOne (M : Model) (id : string) (db : Collection)
  : result Collection :=
  match castObjectId M id with
  | None => Throw (CastError "ObjectId")
  | Some oid => Ok (remove_first (has_id oid) db)
  end.

Definition with_default (M : Model) (path : string) (v : jsval) : jsval :=
  match v with
  | JUndefined => default_of M path
  | _ => v
  end.

(** [new Task({ user, title, description, priority, dueDate })]: the paths
    left undefined take the schema's defaults; the timestamps are set when
    the new document is saved. *)
Definition new_Task (M : Model) (env : Env)
  (user_ : string) (title_ description_ priority_ dueDate_ : jsval) : Task :=
  {| _id := fresh_id env;
     user := user_;
     title := with_default M "title" title_;
     description := with_default M "description" description_;
     priority := with_default M "priority" priority_;
     dueDate := with_default M "dueDate" dueDate_;
     status := default_of M "status";
     createdAt := now env;
     updatedAt := now env |}.

(** [newTask.save()] *)
Definition save_new (M : Model) (t : Task) (db : Collection)
  : result (Task * Collection) :=
  if accepts M None t then Ok (t, db ++ [t])
  else Throw (ValidationError "Task validation failed").

Definition touch (env : Env) (t : Task) : Task :=
  {| _id := _id t; user := user t; title := title t;
     description := description t; priority := priority t;
     dueDate := dueDate t; status := status t;
     createdAt := createdAt t; updatedAt := now env |}.

(** [task.save()] on a document read from the collection: a document with
    no modified path is not written; a modified one gets a new [updatedAt]
    and replaces the stored document of the same [_id]. *)
Definition save_existing (M : Model) (env : Env) (old t : Task)
  (db : Collection) : result (Task * Collection) :=
  if accepts M (Some old) t then
    if Task_eqb t old then Ok (t, db)
    else Ok (touch env t, replace_first (has_id (_id t)) (touch env t) db)
  else Throw (ValidationError "Task validation failed").

(** [.sort({ createdAt: -1 })]: newest first. *)
Fixpoint insert_desc (t : Task) (l : list Task) : list Task :=
  match l with
  | [] => [t]
  | x :: l' =>
      if createdAt x <=? createdAt t then t :: l
      else x :: insert_desc t l'
  end.

Fixpoint sort_desc (l : list Task) : list Task :=
  match l with
  | [] => []
  | t :: l' => insert_desc t (sort_desc l')
  end.

(** The order of the sorted list: no task is older than the next. *)
Definition newer_first (a b : Task) : Prop := createdAt b <= createdAt a.

(** [Task.find({ user: uid }).sort({ createdAt: -1 })] *)
Definition find_by_user (uid : string) (db : Collection) : list Task :=
  sort_desc (filter (owned_by uid) db).

(* ================================================================== *)
(** * Responses *)
(* ================================================================== *)

(** The JSON a handler sends. *)
Inductive Payload : Type :=
| Msg (msg : string)
| MsgDetails (msg details : string)
| TaskDoc (t : Task)
| TaskDocs (l : list Task)
| Suggestions (suggestions : jsval).

Record Response : Type := {
  statusCode : Z;
  json : Payload
}.

(** [res.status(code).json(payload)]; [res.json(payload)] sends 200. *)
Definition respond (code : Z) (p : Payload) : Response :=
  {| statusCode := code; json := p |}.

(* ================================================================== *)
(** * The CRUD handlers *)
(* ================================================================== *)

(** Every handler takes the authenticated user's id [uid] (the
    [req.user.id] set by the auth middleware: the id string of a registered
    user), what the request carries, and the collection; it returns the
    response and the collection afterwards.  [body] is [req.body] as the
    JSON body parser leaves it, an object; the names that a handler
    destructures from it are undefined when the body does not have them. *)

(** [router.post("/")] *)
Definition post_tasks (M : Model) (env : Env) (uid : string)
  (body : JsObject) (db : Collection) : Response * Collection :=
  let attempt : result (Response * Collection) :=
    let title_ := lookup "title" body in
    let description_ := lookup "description" body in
    let priority_ := lookup "priority" body in
    let dueDate_ := lookup "dueDate" body in
    if negb (truthy title_) then
      Ok (respond 400 (Msg "Task title is required"), db)
    else
      let newTask :=
        new_Task M env uid title_ description_ priority_
          (js_or dueDate_ JNull) in
      saved <- save_new M newTask db ;;
      Ok (respond 201 (TaskDoc (fst saved)), snd saved)
  in
  match attempt with
  | Ok r => r
  | Throw err => (respond 500 (Msg "Server error"), db)
  end.

(** [router.get("/")] *)
Definition get_tasks (uid : string) (db : Collection)
  : Response * Collection :=
  (respond 200 (TaskDocs (find_by_user uid db)), db).

(** The assignments of [router.put("/:id")] to the document it read. *)
Definition update_fields (task : Task)
  (title_ description_ priority_ dueDate_ status_ : jsval) : Task :=
  let dueDate1 :=
    match dueDate_ with
    | JUndefined => dueDate task
    | _ => dueDate_
    end in
  {| _id := _id task;
     user := user task;
     title := js_or title_ (title task);
     description :=
       match description_ with
       | JUndefined => description task
       | _ => description_
       end;
     priority := js_or priority_ (priority task);
     dueDate :=
       match dueDate_ with
       | JStr EmptyString => JNull
       | _ => dueDate1
       end;
     status := js_or status_ (status task);
     createdAt := createdAt task;
     updatedAt := updatedAt task |}.

(** The document that PUT saves, given the one it read. *)
Definition updated (task : Task) (body : JsObject) : Task :=
  update_fields task (lookup "title" body) (lookup "description" body)
    (lookup "priority" body) (lookup "dueDate" body) (lookup "status" body).

(** The [catch] of the PUT and DELETE handlers. *)
Definition on_id_error (err : Error) : Response :=
  match kind err with
  | Some k =>
      if String.eqb k "ObjectId" then respond 400 (Msg "Invalid task ID")
      else respond 500 (Msg "Server error")
  | None => respond 500 (Msg "Server error")
  end.

(** [router.put("/:id")] *)
Definition put_task (M : Model) (env : Env) (uid : string) (id : string)
  (body : JsObject) (db : Collection) : Response * Collection :=
  let attempt : result (Response * Collection) :=
    let title_ := lookup "title" body in
    let description_ := lookup "description" body in
    let priority_ := lookup "priority" body in
    let dueDate_ := lookup "dueDate" body in
    let status_ := lookup "status" body in
    found <- findById M id db ;;
    match found with
    | None => Ok (respond 404 (Msg "Task not found"), db)
    | Some task =>
        if negb (String.eqb (user task) uid) then
          Ok (respond 401 (Msg "Not authorized"), db)
        else
          let task' :=
            update_fields task title_ description_ priority_ dueDate_
              status_ in
          saved <- save_existing M env task task' db ;;
          Ok (respond 200 (TaskDoc (fst saved)), snd saved)
    end
  in
  match attempt with
  | Ok r => r
  | Throw err => (on_id_error err, db)
  end.

(** [router.delete("/:id")] *)
Definition delete_task (M : Model) (uid : string) (id : string)
  (db : Collection) : Response * Collection :=
  let attempt : result (Response * Collection) :=
    found <- findById M id db ;;
    match found with
    | None => Ok (respond 404 (Msg "Task not found"), db)
    | Some task =>
        if negb (String.eqb (user task) uid) then
          Ok (respond 401 (Msg "Not authorized"), db)
        else
          db' <- deleteOne M id db ;;
          Ok (respond 200 (Msg "Task removed"), db')
    end
  in
  match attempt with
  | Ok r => r
  | Throw err => (on_id_error err, db)
  end.

(* ================================================================== *)
(** * The suggestion handler *)
(* ================================================================== *)

(** What [fetch] is called with; [req_body] is the payload that goes out
    as [JSON.stringify(payload)]. *)
Record FetchRequest : Type := {
  req_url : string;
  req_method : string;
  req_headers : list (string * string);
  req_body : jsval
}.

(** What [fetch] resolves to: status line and body text. *)
Record FetchResponse : Type := {
  resp_status : Z;
  resp_statusText : string;
  resp_text : string
}.

(** [response.ok]: the status is in the range 200-299. *)
Definition resp_ok (r : FetchResponse) : bool :=
  (200 <=? resp_status r) && (resp_status r <=? 299).

(** Programs that may call [fetch]: the promise either resolves to a
    response or rejects with an error. *)
Inductive io (A : Type) : Type :=
| Ret (a : A)
| Fetch (rq : FetchRequest) (k : result FetchResponse -> io A).
Arguments Ret {A} a.
Arguments Fetch {A} rq k.

(** The world outside: it answers a call knowing the calls made before. *)
Definition Network := list FetchRequest -> FetchRequest -> result FetchResponse.

(** Running a program: its value and the calls it made, in order. *)
Fixpoint run {A : Type} (net : Network) (made : list FetchRequest)
  (p : io A) : A * list FetchRequest :=
  match p with
  | Ret a => (a, made)
  | Fetch rq k => run net (made ++ [rq]) (k (net made rq))
  end.

Definition dq : string := String "034"%char EmptyString.

(** [process.env.GEMINI_API_KEY], or the empty string when it is not set. *)
Definition GEMINI_API_KEY (env_key : option string) : string :=
  match env_key with
  | Some k => if truthy (JStr k) then k else EmptyString
  | None => EmptyString
  end.

Definition prompt_of (E : Engine) (mainTaskTitle : jsval) : string :=
  "Given the main task " ++ dq ++ ToString E mainTaskTitle ++ dq
  ++ ", suggest 3-5 concise, actionable subtasks. Respond only with a JSON array of strings, e.g., ["
  ++ dq ++ "Subtask 1" ++ dq ++ ", " ++ dq ++ "Subtask 2" ++ dq ++ "].".

Definition payload_of (prompt : string) : jsval :=
  JObj
    [("contents",
       JArr [JObj [("role", JStr "user");
                   ("parts", JArr [JObj [("text", JStr prompt)]])]]);
     ("generationConfig",
       JObj [("responseMimeType", JStr "application/json");
             ("responseSchema",
               JObj [("type", JStr "ARRAY");
                     ("items", JObj [("type", JStr "STRING")])])])].

Definition apiUrl (key : string) : string :=
  "https://generativelanguage.googleapis.com/v1beta/models/gemini-2.0-flash:generateContent?key="
  ++ key.

Definition gemini_request (E : Engine) (key : string) (mainTaskTitle : jsval)
  : FetchRequest :=
  {| req_url := apiUrl key;
     req_method := "POST";
     req_headers := [("Content-Type", "application/json")];
     req_body := payload_of (prompt_of E mainTaskTitle) |}.

(** The test of the [if] that validates the structure of the response:
    a chain of [&&] that stops at the first falsy operand, and throws where
    it reads a property of undefined or null. *)
Definition valid_structure (E : Engine) (result_ : jsval) : result bool :=
  candidates <- get_prop result_ "candidates" ;;
  if negb (truthy candidates) then Ok false else
  len <- get_prop candidates "length" ;;
  if negb (js_gt0 E len) then Ok false else
  c0 <- get_index candidates 0 ;;
  content <- get_prop c0 "content" ;;
  if negb (truthy content) then Ok false else
  parts <- get_prop content "parts" ;;
  if negb (truthy parts) then Ok false else
  plen <- get_prop parts "length" ;;
  if negb (js_gt0 E plen) then Ok false else
  p0 <- get_index parts 0 ;;
  text <- get_prop p0 "text" ;;
  Ok (truthy text).

(** [result.candidates[0].content.parts[0].text] *)
Definition raw_text (result_ : jsval) : result jsval :=
  candidates <- get_prop result_ "candidates" ;;
  c0 <- get_index candidates 0 ;;
  content <- get_prop c0 "content" ;;
  parts <- get_prop content "parts" ;;
  p0 <- get_index parts 0 ;;
  get_prop p0 "text".

(** The inner [try]: [JSON.parse(rawJsonText)], which converts its argument
    to a string, and the test that the value is an array. *)
Definition parse_suggestions (E : Engine) (rawJsonText : jsval)
  : result jsval :=
  suggestions <- JSON_parse E (ToString E rawJsonText) ;;
  if negb (is_array suggestions) then
    Throw (PlainError "Parsed suggestions are not an array.")
  else Ok suggestions.

(** The outer [try], from the moment [fetch] has resolved. *)
Definition on_response (E : Engine) (response : FetchResponse)
  : result Response :=
  if negb (resp_ok response) then
    Ok (respond (resp_status response)
          (MsgDetails ("Gemini API error: " ++ resp_statusText response)
             (resp_text response)))
  else
    result_ <- JSON_parse E (resp_text response) ;;
    valid <- valid_structure E result_ ;;
    if valid then
      rawJsonText <- raw_text result_ ;;
      match parse_suggestions E rawJsonText with
      | Ok suggestions => Ok (respond 200 (Suggestions suggestions))
      | Throw parseError =>
          Ok (respond 500
                (MsgDetails
                   "Failed to parse AI suggestions (invalid format from Gemini)."
                   (message parseError)))
      end
    else
      Ok (respond 500
            (Msg "No valid AI suggestions received from the service.")).

(** [router.post("/suggest")]; [env_key] is [process.env.GEMINI_API_KEY]. *)
Definition post_suggest (E : Engine) (env_key : option string)
  (body : JsObject) : io Response :=
  let mainTaskTitle := lookup "mainTaskTitle" body in
  if negb (truthy mainTaskTitle) then
    Ret (respond 400 (Msg "Main task title is required for suggestions."))
  else if negb (truthy (JStr (GEMINI_API_KEY env_key))) then
    Ret (respond 500
           (Msg "AI service not configured: GEMINI_API_KEY is missing."))
  else
    Fetch (gemini_request E (GEMINI_API_KEY env_key) mainTaskTitle)
      (fun fetched =>
         Ret (match (response <- fetched ;; on_response E response) with
              | Ok r => r
              | Throw error =>
                  respond 500
                    (MsgDetails "Server error while fetching AI suggestions."
                       (message error))
              end)).

(** The handler against a network: its response and the calls it made. *)
Definition suggest (E : Engine) (net : Network) (env_key : option string)
  (body : JsObject) : Response * list FetchRequest :=
  run net [] (post_suggest E env_key body).

(** What the handler sends once [fetch] has settled. *)
Definition settled (E : Engine) (fetched : result FetchResponse)
  : Response :=
  match (response <- fetched ;; on_response E response) with
  | Ok r => r
  | Throw error =>
      respond 500
        (MsgDetails "Server error while fetching AI suggestions."
           (message error))
  end.

(* ================================================================== *)
(** * What the suggestion handler is said to accept *)
(* ================================================================== *)

(** Two readings of "the response contains
    candidates[0].content.parts[0].text".  In the first, the path is a path
    through JSON: [candidates] and [parts] are arrays, the steps between
    them objects.  The second is the JavaScript expression itself,
    [raw_text] above, which reads index 0 of whatever it is given. *)
Definition json_field (k : string) (v : jsval) : option jsval :=
  match v with
  | JObj ps =>
      match lookup k ps with
      | JUndefined => None
      | x => Some x
      end
  | _ => None
  end.

Definition json_first (v : jsval) : option jsval :=
  match v with
  | JArr (x :: _) => Some x
  | _ => None
  end.

Definition opt_bind {A B : Type} (o : option A) (k : A -> option B)
  : option B :=
  match o with
  | Some a => k a
  | None => None
  end.

Definition json_path_text (result_ : jsval) : option jsval :=
  opt_bind (json_field "candidates" result_) (fun candidates =>
  opt_bind (json_first candidates) (fun c0 =>
  opt_bind (json_field "content" c0) (fun content =>
  opt_bind (json_field "parts" content) (fun parts =>
  opt_bind (json_first parts) (fun p0 =>
  json_field "text" p0))))).

(** The second reading as a partial function: the value of the
    expression, when it has one. *)
Definition js_path_text (result_ : jsval) : option jsval :=
  match raw_text result_ with
  | Ok JUndefined => None
  | Ok text => Some text
  | Throw _ => None
  end.

(** "The OK response contains the text and the text parses as JSON to an
    array", the text being found by [path]. *)
Definition text_parses (path : jsval -> option jsval) (E : Engine)
  (r : FetchResponse) : Prop :=
  exists result_ text s,
    JSON_parse E (resp_text r) = Ok result_
    /\ path result_ = Some text
    /\ JSON_parse E (ToString E text) = Ok s
    /\ is_array s = true.

(** "200 with [{ suggestions }] if and only if the OK response contains the
    text and the text parses to an array". *)
Definition ok_iff_text_parses (path : jsval -> option jsval) (E : Engine)
  : Prop :=
  forall (net : Network) (env_key : option string) (body : JsObject)
         (r : FetchResponse),
    truthy (lookup "mainTaskTitle" body) = true ->
    GEMINI_API_KEY env_key <> EmptyString ->
    net [] (gemini_request E (GEMINI_API_KEY env_key)
              (lookup "mainTaskTitle" body)) = Ok r ->
    resp_ok r = true ->
    ((exists s,
        fst (suggest E net env_key body) = respond 200 (Suggestions s))
     <-> text_parses path E r).

(** The path as the handler guards it: a step by name needs a truthy
    property of an object; index 0 is taken of a non-empty array, or of an
    object whose [length] property is greater than 0. *)
Definition guarded_field (k : string) (v : jsval) : option jsval :=
  match v with
  | JObj ps => if truthy (lookup k ps) then Some (lookup k ps) else None
  | _ => None
  end.

Definition guarded_first (E : Engine) (v : jsval) : option jsval :=
  match v with
  | JArr (x :: _) => Some x
  | JObj ps =>
      if js_gt0 E (lookup "length" ps) then Some (lookup "0" ps) else None
  | _ => None
  end.

Definition guarded_text (E : Engine) (result_ : jsval) : option jsval :=
  opt_bind (guarded_field "candidates" result_) (fun candidates =>
  opt_bind (guarded_first E candidates) (fun c0 =>
  opt_bind (guarded_field "content" c0) (fun content =>
  opt_bind (guarded_field "parts" content) (fun parts =>
  opt_bind (guarded_first E parts) (fun p0 =>
  guarded_field "text" p0))))).

(** A response of the handler that reports an error: a status outside
    200-299 and a message. *)
Definition is_error_response (r : Response) : bool :=
  negb ((200 <=? statusCode r) && (statusCode r <=? 299))
  && match json r with
     | Msg _ | MsgDetails _ _ => true
     | _ => false
     end.

(* ================================================================== *)
(** * A concrete engine and a concrete model *)
(* ================================================================== *)

(** The built-ins on a fragment of their domain, to run the handlers on
    concrete requests: [String(v)] for the values above; numeric strings
    that are plain decimal digits; JSON texts without fractions and
    exponents and with no escape sequence but those of the quote, the
    backslash and the slash (a text outside the fragment is a syntax error
    here). *)
Fixpoint ToString_core (v : jsval) : string :=
  match v with
  | JUndefined => "undefined"
  | JNull => "null"
  | JBool b => if b then "true" else "false"
  | JNum n => NilZero.string_of_int (Z.to_int n)
  | JStr s => s
  | JArr l =>
      (fix join (l : list jsval) : string :=
         match l with
         | [] => EmptyString
         | x :: r =>
             let sx := match x with
                       | JUndefined | JNull => EmptyString
                       | _ => ToString_core x
                       end in
             match r with
             | [] => sx
             | _ => (sx ++ "," ++ join r)%string
             end
         end) l
  | JObj _ => "[object Object]"
  end.

Definition is_digit (c : ascii) : bool :=
  let n := nat_of_ascii c in ((48 <=? n) && (n <=? 57))%nat.

Definition is_ws (c : ascii) : bool :=
  let n := nat_of_ascii c in
  ((n =? 32) || (n =? 9) || (n =? 10) || (n =? 13))%nat.

Definition digit_val (c : ascii) : Z := Z.of_nat (nat_of_ascii c) - 48.

Fixpoint read_digits (acc : Z) (cs : list ascii) : Z * list ascii :=
  match cs with
  | c :: r => if is_digit c then read_digits (10 * acc + digit_val c) r
              else (acc, cs)
  | [] => (acc, [])
  end.

Definition StringToNumber_gt0_core (s : string) : bool :=
  let cs := list_ascii_of_string s in
  match cs with
  | [] => false
  | _ => forallb is_digit cs && (0 <? fst (read_digits 0 cs))
  end.

Fixpoint skip_ws (cs : list ascii) : list ascii :=
  match cs with
  | c :: r => if is_ws c then skip_ws r else cs
  | [] => []
  end.

Fixpoint strip_prefix (p cs : list ascii) : option (list ascii) :=
  match p, cs with
  | [], _ => Some cs
  | a :: p', c :: cs' => if Ascii.eqb a c then strip_prefix p' cs' else None
  | _ :: _, [] => None
  end.

Definition dquote : ascii := "034"%char.

Fixpoint read_string (cs : list ascii) : option (string * list ascii) :=
  match cs with
  | [] => None
  | c :: r =>
      if Ascii.eqb c dquote then Some (EmptyString, r)
      else if Ascii.eqb c "\"%char then
        match r with
        | e :: r1 =>
            if Ascii.eqb e dquote || Ascii.eqb e "\"%char
               || Ascii.eqb e "/"%char
            then match read_string r1 with
                 | Some (s, r') => Some (String e s, r')
                 | None => None
                 end
            else None
        | [] => None
        end
      else match read_string r with
           | Some (s, r') => Some (String c s, r')
           | None => None
           end
  end.

Definition read_number (cs : list ascii) : option (jsval * list ascii) :=
  let '(neg, ds) :=
    match cs with
    | c :: r => if Ascii.eqb c "-"%char then (true, r) else (false, cs)
    | [] => (false, cs)
    end in
  match ds with
  | d :: _ =>
      if is_digit d then
        let '(n, rest) := read_digits 0 ds in
        match rest with
        | c :: _ =>
            if Ascii.eqb c "."%char || Ascii.eqb c "e"%char
               || Ascii.eqb c "E"%char
            then None
            else Some (JNum (if neg then - n else n), rest)
        | [] => Some (JNum (if neg then - n else n), rest)
        end
      else None
  | [] => None
  end.

(** A list of items separated by commas and closed by [close]. *)
Fixpoint read_items {A : Type}
  (item : list ascii -> option (A * list ascii)) (close : ascii)
  (n : nat) (cs : list ascii) : option (list A * list ascii) :=
  match n with
  | O => None
  | S n' =>
      match item cs with
      | Some (v, r) =>
          match skip_ws r with
          | c :: r' =>
              if Ascii.eqb c close then Some ([v], r')
              else if Ascii.eqb c ","%char then
                match read_items item close n' r' with
                | Some (vs, r'') => Some (v :: vs, r'')
                | None => None
                end
              else None
          | [] => None
          end
      | None => None
      end
  end.

Definition read_member (value : list ascii -> option (jsval * list ascii))
  (cs : list ascii) : option ((string * jsval) * list ascii) :=
  match skip_ws cs with
  | c :: r =>
      if Ascii.eqb c dquote then
        match read_string r with
        | Some (k, r1) =>
            match skip_ws r1 with
            | c1 :: r2 =>
                if Ascii.eqb c1 ":"%char then
                  match value r2 with
                  | Some (v, r3) => Some ((k, v), r3)
                  | None => None
                  end
                else None
            | [] => None
            end
        | None => None
        end
      else None
  | [] => None
  end.

Fixpoint read_value (fuel : nat) (cs : list ascii)
  : option (jsval * list ascii) :=
  match fuel with
  | O => None
  | S fuel' =>
      match skip_ws cs with
      | [] => None
      | c :: r =>
          if Ascii.eqb c dquote then
            match read_string r with
            | Some (s, r') => Some (JStr s, r')
            | None => None
            end
          else if Ascii.eqb c "["%char then
            match skip_ws r with
            | c1 :: r1 =>
                if Ascii.eqb c1 "]"%char then Some (JArr [], r1)
                else
                  match read_items (read_value fuel') "]"%char
                          (S (List.length r)) r with
                  | Some (vs, r') => Some (JArr vs, r')
                  | None => None
                  end
            | [] => None
            end
          else if Ascii.eqb c "{"%char then
            match skip_ws r with
            | c1 :: r1 =>
                if Ascii.eqb c1 "}"%char then Some (JObj [], r1)
                else
                  match read_items (read_member (read_value fuel'))
                          "}"%char (S (List.length r)) r with
                  | Some (ms, r') => Some (JObj (rev ms), r')
                  | None => None
                  end
            | [] => None
            end
          else
            match strip_prefix (list_ascii_of_string "null") (c :: r) with
            | Some r' => Some (JNull, r')
            | None =>
            match strip_prefix (list_ascii_of_string "true") (c :: r) with
            | Some r' => Some (JBool true, r')
            | None =>
            match strip_prefix (list_ascii_of_string "false") (c :: r) with
            | Some r' => Some (JBool false, r')
            | None => read_number (c :: r)
            end end end
      end
  end.

Definition JSON_parse_core (s : string) : result jsval :=
  let cs := list_ascii_of_string s in
  match read_value (S (List.length cs)) cs with
  | Some (v, rest) =>
      match skip_ws rest with
      | [] => Ok v
      | _ => Throw (SyntaxError "Unexpected non-whitespace character after JSON")
      end
  | None => Throw (SyntaxError "Unexpected token in JSON")
  end.

Definition core_engine : Engine :=
  {| ToString := ToString_core;
     StringToNumber_gt0 := StringToNumber_gt0_core;
     JSON_parse := JSON_parse_core |}.

(** An ObjectId string: 24 hexadecimal digits, read without regard to the
    case of the letters. *)
Definition is_hex (c : ascii) : bool :=
  let n := nat_of_ascii c in
  (((48 <=? n) && (n <=? 57)) || ((97 <=? n) && (n <=? 102))
   || ((65 <=? n) && (n <=? 70)))%nat.

Definition lower (c : ascii) : ascii :=
  let n := nat_of_ascii c in
  if ((65 <=? n) && (n <=? 70))%nat then ascii_of_nat (n + 32) else c.

Definition castObjectId_hex (s : string) : option string :=
  let cs := list_ascii_of_string s in
  if ((List.length cs =? 24)%nat && forallb is_hex cs)%bool then
    Some (string_of_list_ascii (map lower cs))
  else None.

(** A schema without defaults and without validators. *)
Definition plain_model : Model :=
  {| castObjectId := castObjectId_hex;
     default_of := fun _ => JUndefined;
     accepts := fun _ _ => true |}.

(** Sample data. *)
Definition alice : string := "64b000000000000000000a11".
Definition bob : string := "64b000000000000000000b0b".

Definition task1 : Task :=
  {| _id := "65c000000000000000000001"; user := alice;
     title := JStr "Buy groceries"; description := JStr "Milk, eggs, bread";
     priority := JStr "high"; dueDate := JStr "2025-12-31T23:59:59Z";
     status := JStr "pending"; createdAt := 1000; updatedAt := 1000 |}.

Definition task2 : Task :=
  {| _id := "65c000000000000000000002"; user := bob;
     title := JStr "Write report"; description := JUndefined;
     priority := JStr "low"; dueDate := JNull;
     status := JStr "pending"; createdAt := 2000; updatedAt := 2000 |}.

Definition task3 : Task :=
  {| _id := "65c000000000000000000003"; user := alice;
     title := JStr "Call plumber"; description := JStr "kitchen sink";
     priority := JStr "medium"; dueDate := JNull;
     status := JStr "completed"; createdAt := 3000; updatedAt := 3500 |}.

Definition sample_db : Collection := [task1; task2; task3].

Definition sample_env : Env :=
  {| now := 5000; fresh_id := "65c000000000000000000004" |}.

(** A network that gives every call the same response. *)
Definition answering (r : FetchResponse) : Network := fun _ _ => Ok r.

Definition ok_with (text : string) : FetchResponse :=
  {| resp_status := 200; resp_statusText := "OK"; resp_text := text |}.

Definition quoted (s : string) : string := dq ++ s ++ dq.

(** A response of the shape the service documents: an object whose
    candidates are an array of one object, with a content whose parts are
    an array of one object, with a text that is the JSON of an array of two
    strings. *)
Definition gemini_text : string :=
  "{" ++ quoted "candidates" ++ ":[{" ++ quoted "content" ++ ":{"
  ++ quoted "parts" ++ ":[{" ++ quoted "text" ++ ":" ++ dq
  ++ "[\" ++ dq ++ "Book flights\" ++ dq ++ ",\" ++ dq
  ++ "Reserve hotel\" ++ dq ++ "]" ++ dq ++ "}]}}]}".

(** The candidates as an object with a length of 1 and a property 0,
    the text being the JSON of the empty array. *)
Definition array_like_text : string :=
  "{" ++ quoted "candidates" ++ ":{" ++ quoted "length" ++ ":1,"
  ++ quoted "0" ++ ":{" ++ quoted "content" ++ ":{" ++ quoted "parts"
  ++ ":[{" ++ quoted "text" ++ ":" ++ quoted "[]" ++ "}]}}}}".

(** The same without the length. *)
Definition no_length_text : string :=
  "{" ++ quoted "candidates" ++ ":{" ++ quoted "0" ++ ":{"
  ++ quoted "content" ++ ":{" ++ quoted "parts" ++ ":[{" ++ quoted "text"
  ++ ":" ++ quoted "[]" ++ "}]}}}}".

Definition sample_key : option string := Some "test-key".

Definition unavailable : FetchResponse :=
  {| resp_status := 503; resp_statusText := "Service Unavailable";
     resp_text := "overloaded" |}.

Definition sample_suggest_body : JsObject :=
  [("mainTaskTitle", JStr "Plan a trip")].

(* ================================================================== *)
(** * The server: allowed origins and the error handler *)
(* ================================================================== *)

(** [allowedOrigins] of [server.js]. *)
Definition allowedOrigins : list string :=
  ["https://fullstack-taskmanager-1.onrender.com";
   "http://localhost:5173";
   "https://fullstack-taskmanager-ux19.onrender.com"].

(** [array.indexOf(x)]: the first index at which [x] is found, -1 when
    there is none. *)
Fixpoint indexOf_from (i : Z) (l : list string) (x : string) : Z :=
  match l with
  | [] => -1
  | y :: l' => if String.eqb y x then i else indexOf_from (i + 1) l' x
  end.

Definition indexOf (l : list string) (x : string) : Z := indexOf_from 0 l x.

(** The [origin] function given to [cors]; [origin] is the Origin header
    of the request, when there is one.  The result is what [callback] is
    called with: an error, or no error and the decision. *)
Definition cors_origin (origin : option string) : result bool :=
  match origin with
  | None => Ok true
  | Some o =>
      if negb (truthy (JStr o)) then Ok true
      else if indexOf allowedOrigins o =? -1 then
        Throw (PlainError
                 "The CORS policy for this site does not allow access from the specified Origin.")
      else Ok true
  end.

(** The error-handling middleware, the last of the application. *)
Definition error_handler (err : Error) : Response :=
  respond 500
    (MsgDetails "Server Error"
       (if truthy (JStr (message err)) then message err
        else "Something broke unexpectedly!")).

(** A request at the door: the error of the origin function goes to the
    error handler; [None] lets the request through to the routes. *)
Definition origin_gate (origin : option string) : option Response :=
  match cors_origin origin with
  | Ok _ => None
  | Throw err => Some (error_handler err)
  end.

(* ================================================================== *)
(** * The sign-in form of the client *)
(* ================================================================== *)

(** The state of [AuthForm]: one field per [useState]. *)
Record FormState : Type := {
  isLogin : bool;
  username : string;
  email : string;
  password : string;
  confirmPassword : string;
  form_message : jsval;
  messageType : string;
  isLoading : bool
}.

(** What [handleSubmit] does besides calling [fetch]: the calls of the
    state setters, [e.preventDefault()], [setTimeout] with the function
    that clears the message, and [onAuthSuccess], the function that the
    parent component gives, which is taken to return. *)
Inductive Effect : Type :=
| PreventDefault
| SetIsLogin (b : bool)
| SetUsername (s : string)
| SetEmail (s : string)
| SetPassword (s : string)
| SetConfirmPassword (s : string)
| SetMessage (v : jsval)
| SetMessageType (s : string)
| SetIsLoading (b : bool)
| ClearMessageAfter (ms : Z)
| AuthSuccess (token userId username_ : jsval).

(** The state once a setter has been called. *)
Definition apply_effect (st : FormState) (ef : Effect) : FormState :=
  match ef with
  | SetIsLogin b =>
      {| isLogin := b; username := username st; email := email st;
         password := password st; confirmPassword := confirmPassword st;
         form_message := form_message st; messageType := messageType st;
         isLoading := isLoading st |}
  | SetUsername s =>
      {| isLogin := isLogin st; username := s; email := email st;
         password := password st; confirmPassword := confirmPassword st;
         form_message := form_message st; messageType := messageType st;
         isLoading := isLoading st |}
  | SetEmail s =>
      {| isLogin := isLogin st; username := username st; email := s;
         password := password st; confirmPassword := confirmPassword st;
         form_message := form_message st; messageType := messageType st;
         isLoading := isLoading st |}
  | SetPassword s =>
      {| isLogin := isLogin st; username := username st; email := email st;
         password := s; confirmPassword := confirmPassword st;
         form_message := form_message st; messageType := messageType st;
         isLoading := isLoading st |}
  | SetConfirmPassword s =>
      {| isLogin := isLogin st; username := username st; email := email st;
         password := password st; confirmPassword := s;
         form_message := form_message st; messageType := messageType st;
         isLoading := isLoading st |}
  | SetMessage v =>
      {| isLogin := isLogin st; username := username st; email := email st;
         password := password st; confirmPassword := confirmPassword st;
         form_message := v; messageType := messageType st;
         isLoading := isLoading st |}
  | SetMessageType s =>
      {| isLogin := isLogin st; username := username st; email := email st;
         password := password st; confirmPassword := confirmPassword st;
         form_message := form_message st; messageType := s;
         isLoading := isLoading st |}
  | SetIsLoading b =>
      {| isLogin := isLogin st; username := username st; email := email st;
         password := password st; confirmPassword := confirmPassword st;
         form_message := form_message st; messageType := messageType st;
         isLoading := b |}
  | PreventDefault | ClearMessageAfter _ | AuthSuccess _ _ _ => st
  end.

(** The state after the setters called by a submit, before the timer that
    clears the message fires. *)
Definition apply_effects (st : FormState) (efs : list Effect) : FormState :=
  fold_left apply_effect efs st.

(** White space as [trim] sees it, among the code units below 256, which
    is what a character of a string stands for here: tab, line feed,
    vertical tab, form feed, carriage return, space and no-break space. *)
Definition is_space (c : ascii) : bool :=
  let n := nat_of_ascii c in
  (((9 <=? n) && (n <=? 13)) || (n =? 32) || (n =? 160))%nat.

Fixpoint trim_start (s : string) : string :=
  match s with
  | EmptyString => EmptyString
  | String c r => if is_space c then trim_start r else s
  end.

Fixpoint trim_end (s : string) : string :=
  match s with
  | EmptyString => EmptyString
  | String c r =>
      match trim_end r with
      | EmptyString => if is_space c then EmptyString
                       else String c EmptyString
      | r' => String c r'
      end
  end.

(** [s.trim()] *)
Definition trim (s : string) : string := trim_end (trim_start s).

(** [!s.trim()] *)
Definition blank (s : string) : bool := negb (truthy (JStr (trim s))).

Fixpoint all_space (s : string) : bool :=
  match s with
  | EmptyString => true
  | String c r => is_space c && all_space r
  end.

(** [showMessage(msg, type)] *)
Definition showMessage (msg : jsval) (type : string) : list Effect :=
  [SetMessage msg; SetMessageType type; ClearMessageAfter 3000].

Definition json_headers : list (string * string) :=
  [("Content-Type", "application/json")].

Definition login_request (API_BASE_URL : string) (st : FormState)
  : FetchRequest :=
  {| req_url := API_BASE_URL ++ "/api/auth/login";
     req_method := "POST";
     req_headers := json_headers;
     req_body := JObj [("emailOrUsername", JStr (email st));
                       ("password", JStr (password st))] |}.

Definition register_request (API_BASE_URL : string) (st : FormState)
  : FetchRequest :=
  {| req_url := API_BASE_URL ++ "/api/auth/register";
     req_method := "POST";
     req_headers := json_headers;
     req_body := JObj [("username", JStr (username st));
                       ("email", JStr (email st));
                       ("password", JStr (password st))] |}.

(** The [try] of [handleSubmit] from the moment [fetch] has settled: the
    effects it got to, and the error it threw, if any. *)
Definition submit_try (E : Engine) (st : FormState)
  (fetched : result FetchResponse) : list Effect * option Error :=
  match fetched with
  | Throw e => ([], Some e)
  | Ok response =>
      match JSON_parse E (resp_text response) with
      | Throw e => ([], Some e)
      | Ok data =>
          if resp_ok response then
            let shown :=
              showMessage
                (JStr (if isLogin st then "Login successful!"
                       else "Registration successful! You can now log in."))
                "success" in
            if isLogin st then
              match (token <- get_prop data "token" ;;
                     userId <- get_prop data "userId" ;;
                     username_ <- get_prop data "username" ;;
                     Ok (AuthSuccess token userId username_)) with
              | Ok called => (shown ++ [called], None)
              | Throw e => (shown, Some e)
              end
            else
              (shown ++ [SetIsLogin true; SetEmail EmptyString;
                         SetPassword EmptyString; SetUsername EmptyString;
                         SetConfirmPassword EmptyString], None)
          else
            match get_prop data "msg" with
            | Ok msg =>
                (showMessage
                   (js_or msg
                      (JStr (if isLogin st then "Login failed."
                             else "Registration failed.")))
                   "error", None)
            | Throw e => ([], Some e)
            end
      end
  end.

(** The [try], its [catch] and its [finally]. *)
Definition submit_settled (E : Engine) (st : FormState)
  (fetched : result FetchResponse) : list Effect :=
  fst (submit_try E st fetched)
  ++ match snd (submit_try E st fetched) with
     | Some _ =>
         showMessage
           (JStr "Network error. Please check server connection.") "error"
     | None => []
     end
  ++ [SetIsLoading false].

Definition submit_start : list Effect :=
  [PreventDefault; SetIsLoading true; SetMessage (JStr EmptyString);
   SetMessageType EmptyString].

(** One of the three early returns of [handleSubmit]. *)
Definition submit_refused (msg : string) : list Effect :=
  submit_start ++ showMessage (JStr msg) "error" ++ [SetIsLoading false].

(** [handleSubmit] on the state the form is in. *)
Definition handleSubmit (E : Engine) (API_BASE_URL : string)
  (st : FormState) : io (list Effect) :=
  if blank (email st) || blank (password st) then
    Ret (submit_refused "Email/Username and password are required.")
  else if negb (isLogin st)
          && (blank (username st) || blank (confirmPassword st)) then
    Ret (submit_refused "All fields are required for registration.")
  else if negb (isLogin st)
          && negb (String.eqb (password st) (confirmPassword st)) then
    Ret (submit_refused "Passwords do not match.")
  else
    Fetch (if isLogin st then login_request API_BASE_URL st
           else register_request API_BASE_URL st)
      (fun fetched => Ret (submit_start ++ submit_settled E st fetched)).

(** A submit against a network: the effects and the calls made. *)
Definition submit (E : Engine) (net : Network) (API_BASE_URL : string)
  (st : FormState) : list Effect * list FetchRequest :=
  run net [] (handleSubmit E API_BASE_URL st).

(** The form is fit to be sent. *)
Definition form_valid (st : FormState) : bool :=
  negb (all_space (email st)) && negb (all_space (password st))
  && (isLogin st
      || (negb (all_space (username st))
          && negb (all_space (confirmPassword st))
          && String.eqb (password st) (confirmPassword st))).

(** Sample forms. *)
Definition login_form : FormState :=
  {| isLogin := true; username := EmptyString; email := "ann@example.com";
     password := "s3cret"; confirmPassword := EmptyString;
     form_message := JStr EmptyString; messageType := EmptyString;
     isLoading := false |}.



Definition api_base : string := "https://fullstack-taskmanager-ux19.onrender.com".

(** A login answered with a token, a user id and a user name. *)
Definition login_ok_text : string :=
  "{" ++ quoted "token" ++ ":" ++ quoted "tok" ++ "," ++ quoted "userId"
  ++ ":" ++ quoted "64b000000000000000000a11" ++ "," ++ quoted "username"
  ++ ":" ++ quoted "ann" ++ "}".


(* ================================================================== *)
(** * Lemmas on the collection *)
(* ================================================================== *)

Lemma owned_by_iff (uid : string) (t : Task) :
  owned_by uid t = true <-> user t = uid.
Proof. unfold owned_by. apply String.eqb_eq. Qed.

Lemma has_id_iff (oid : string) (t : Task) :
  has_id oid t = true <-> _id t = oid.
Proof. unfold has_id. apply String.eqb_eq. Qed.

Lemma find_absent (oid : string) (db : Collection) :
  (forall t, In t db -> _id t <> oid) -> find (has_id oid) db = None.
Proof.
  induction db as [|x db IH]; intros Hno; simpl; [reflexivity|].
  destruct (has_id oid x) eqn:Hx.
  - apply has_id_iff in Hx. exfalso. apply (Hno x); [now left | exact Hx].
  - apply IH. intros t Ht. apply Hno. now right.
Qed.

Lemma find_replace_first (p : Task -> bool) (t' : Task) (db : Collection)
  (t : Task) :
  find p db = Some t -> p t' = true ->
  find p (replace_first p t' db) = Some t'.
Proof.
  induction db as [|x db IH]; simpl; [discriminate|].
  destruct (p x) eqn:Hx; intros Hf Ht'; simpl.
  - now rewrite Ht'.
  - rewrite Hx. now apply IH.
Qed.

Lemma insert_desc_perm (t : Task) (l : list Task) :
  Permutation (insert_desc t l) (t :: l).
Proof.
  induction l as [|x l IH]; simpl; [apply Permutation_refl|].
  destruct (createdAt x <=? createdAt t); [apply Permutation_refl|].
  eapply perm_trans; [apply perm_skip, IH | apply perm_swap].
Qed.

Lemma sort_desc_perm (l : list Task) : Permutation (sort_desc l) l.
Proof.
  induction l as [|t l IH]; simpl; [constructor|].
  eapply perm_trans; [apply insert_desc_perm | now apply perm_skip].
Qed.

Lemma insert_desc_sorted (t : Task) (l : list Task) :
  Sorted newer_first l -> Sorted newer_first (insert_desc t l).
Proof.
  induction l as [|x l IH]; intros Hs; simpl.
  - repeat constructor.
  - destruct (Z.leb_spec (createdAt x) (createdAt t)) as [Hle|Hlt].
    + constructor; [exact Hs | constructor; exact Hle].
    + inversion Hs as [|? ? Hs' Hhd]; subst.
      constructor; [now apply IH|].
      destruct l as [|y l]; simpl.
      * constructor. unfold newer_first. lia.
      * destruct (createdAt y <=? createdAt t).
        -- constructor. unfold newer_first. lia.
        -- inversion Hhd; subst. now constructor.
Qed.

Lemma find_by_user_sorted (uid : string) (db : Collection) :
  Sorted newer_first (find_by_user uid db).
Proof.
  unfold find_by_user.
  induction (filter (owned_by uid) db) as [|t l IH]; simpl.
  - constructor.
  - now apply insert_desc_sorted.
Qed.

(* ================================================================== *)
(** * Ownership: PUT, DELETE, POST and GET *)
(* ================================================================== *)

(** C1.  When the task with the given id exists and its [user] differs from
    the authenticated user's id, PUT /api/tasks/:id and DELETE
    /api/tasks/:id answer 401 "Not authorized" and leave the collection as
    it was. *)
Theorem not_owner_is_refused (M : Model) (env : Env) (uid id : string)
  (body : JsObject) (db : Collection) (task : Task) :
  findById M id db = Ok (Some task) ->
  user task <> uid ->
  put_task M env uid id body db = (respond 401 (Msg "Not authorized"), db)
  /\ delete_task M uid id db = (respond 401 (Msg "Not authorized"), db).
Proof.
  intros Hfound Hother.
  unfold put_task, delete_task. rewrite Hfound. simpl.
  destruct (String.eqb_spec (user task) uid) as [Heq|_];
    [contradiction|]. simpl.
  split; reflexivity.
Qed.

Lemma not_owner_is_refused_witness :
  put_task plain_model sample_env bob (_id task1)
    [("title", JStr "taken over"); ("status", JStr "completed")] sample_db
  = (respond 401 (Msg "Not authorized"), sample_db)
  /\ delete_task plain_model bob (_id task1) sample_db
     = (respond 401 (Msg "Not authorized"), sample_db).
Proof.
  apply (not_owner_is_refused plain_model sample_env bob (_id task1) _
           sample_db task1).
  - reflexivity.
  - discriminate.
Defined.

Lemma lookup_other (k k' : string) (v : jsval) (body : JsObject) :
  k' <> k -> lookup k' ((k, v) :: body) = lookup k' body.
Proof.
  intros Hne. simpl. destruct (String.eqb_spec k' k); [contradiction|].
  reflexivity.
Qed.

Lemma post_tasks_reads_four (M : Model) (env : Env) (uid : string)
  (body : JsObject) (db : Collection) (k : string) (v : jsval) :
  ~ In k ["title"; "description"; "priority"; "dueDate"] ->
  post_tasks M env uid ((k, v) :: body) db = post_tasks M env uid body db.
Proof.
  intros Hk. unfold post_tasks.
  rewrite !lookup_other; [reflexivity | | | |];
    intros <-; apply Hk; simpl; tauto.
Qed.

(** C2.  A POST /api/tasks answered 201 returns and stores a task whose
    [user] is the authenticated user's id; a property of the body outside
    the four that the handler reads, such as [user], has no effect on the
    response or on the collection. *)
Theorem created_task_owner (M : Model) (env : Env) (uid : string)
  (body : JsObject) (db : Collection) (resp : Response) (db' : Collection) :
  post_tasks M env uid body db = (resp, db') ->
  statusCode resp = 201 ->
  exists t,
    json resp = TaskDoc t /\ user t = uid /\ db' = db ++ [t]
    /\ forall (k : string) (v : jsval),
         ~ In k ["title"; "description"; "priority"; "dueDate"] ->
         post_tasks M env uid ((k, v) :: body) db = (resp, db').
Proof.
  intros Hpost Hcode.
  assert (Hsame : forall k v,
             ~ In k ["title"; "description"; "priority"; "dueDate"] ->
             post_tasks M env uid ((k, v) :: body) db = (resp, db')).
  { intros k v Hk. rewrite post_tasks_reads_four by exact Hk. exact Hpost. }
  unfold post_tasks in Hpost.
  destruct (truthy (lookup "title" body)); simpl in Hpost.
  - unfold save_new in Hpost.
    destruct (accepts M None _); simpl in Hpost.
    + injection Hpost as <- <-.
      eexists. repeat split. exact Hsame.
    + injection Hpost as <- <-. discriminate Hcode.
  - injection Hpost as <- <-. discriminate Hcode.
Qed.

Lemma created_task_owner_witness :
  exists t,
    json (fst (post_tasks plain_model sample_env alice
                 [("title", JStr "Water plants"); ("user", JStr bob)]
                 sample_db)) = TaskDoc t
    /\ user t = alice.
Proof.
  destruct (created_task_owner plain_model sample_env alice
              [("title", JStr "Water plants"); ("user", JStr bob)]
              sample_db _ _ eq_refl eq_refl)
    as (t & Hjson & Huser & _).
  exists t. split; [exact Hjson | exact Huser].
Defined.

(** C3.  GET /api/tasks answers 200 with exactly the tasks whose [user] is
    the authenticated user's id, each as often as it is stored, and leaves
    the collection as it was; two collections with the same tasks of that
    user, whatever the tasks of other users in them, get the same
    response. *)
Theorem get_tasks_only_own (uid : string) (db1 db2 : Collection) :
  (exists l,
     get_tasks uid db1 = (respond 200 (TaskDocs l), db1)
     /\ Permutation l (filter (owned_by uid) db1)
     /\ forall t, In t l <-> In t db1 /\ user t = uid)
  /\ (filter (owned_by uid) db1 = filter (owned_by uid) db2 ->
      fst (get_tasks uid db1) = fst (get_tasks uid db2)).
Proof.
  split.
  - exists (find_by_user uid db1). split; [reflexivity|].
    assert (Hperm : Permutation (find_by_user uid db1)
                      (filter (owned_by uid) db1))
      by apply sort_desc_perm.
    split; [exact Hperm|].
    intros t. rewrite <- owned_by_iff, <- filter_In.
    split; intros Hin.
    + eapply Permutation_in; [exact Hperm | exact Hin].
    + eapply Permutation_in; [apply Permutation_sym, Hperm | exact Hin].
  - intros Hsame. unfold get_tasks, find_by_user. simpl.
    now rewrite Hsame.
Qed.

Lemma get_tasks_only_own_witness :
  (exists l,
     get_tasks alice sample_db = (respond 200 (TaskDocs l), sample_db)
     /\ Permutation l (filter (owned_by alice) sample_db)
     /\ forall t, In t l <-> In t sample_db /\ user t = alice)
  /\ fst (get_tasks alice sample_db) = fst (get_tasks alice [task1; task3]).
Proof.
  destruct (get_tasks_only_own alice sample_db [task1; task3])
    as [Hexact Hsame].
  split; [exact Hexact | apply Hsame; reflexivity].
Defined.

(* ================================================================== *)
(** * Deep equality decides equality *)
(* ================================================================== *)

Lemma jsval_eqb_eq : forall a b : jsval, jsval_eqb a b = true -> a = b.
Proof.
  fix IH 1.
  intros a b. destruct a as [| |x|x|x|xs|ps], b as [| |y|y|y|ys|qs];
    simpl; try discriminate; intros H.
  - reflexivity.
  - reflexivity.
  - f_equal. now apply Bool.eqb_prop.
  - f_equal. now apply Z.eqb_eq.
  - f_equal. now apply String.eqb_eq.
  - f_equal. revert ys H.
    induction xs as [|x xs IHxs]; intros [|y ys] H;
      try discriminate; [reflexivity|].
    apply andb_prop in H as [H1 H2].
    f_equal; [apply IH, H1 | apply IHxs, H2].
  - f_equal. revert qs H.
    induction ps as [|[k x] ps IHps]; intros [|[k' y] qs] H;
      try discriminate; [reflexivity|].
    apply andb_prop in H as [H12 H3]. apply andb_prop in H12 as [H1 H2].
    apply String.eqb_eq in H1. subst k'.
    f_equal; [f_equal; apply IH, H2 | apply IHps, H3].
Qed.

Lemma Task_eqb_eq (a b : Task) : Task_eqb a b = true -> a = b.
Proof.
  unfold Task_eqb. intros H.
  repeat (apply andb_prop in H; destruct H as [H ?]).
  destruct a, b; simpl in *.
  repeat match goal with
         | Hx : String.eqb _ _ = true |- _ => apply String.eqb_eq in Hx
         | Hx : jsval_eqb _ _ = true |- _ => apply jsval_eqb_eq in Hx
         | Hx : Z.eqb _ _ = true |- _ => apply Z.eqb_eq in Hx
         end.
  subst. reflexivity.
Qed.

(* ================================================================== *)
(** * PUT on a task of one's own *)
(* ================================================================== *)

(** POST with a title: the schema alone decides. *)
Lemma post_tasks_titled (M : Model) (env : Env) (uid : string)
  (body : JsObject) (db : Collection) :
  truthy (lookup "title" body) = true ->
  let t := new_Task M env uid (lookup "title" body)
             (lookup "description" body) (lookup "priority" body)
             (js_or (lookup "dueDate" body) JNull) in
  post_tasks M env uid body db
  = if accepts M None t then (respond 201 (TaskDoc t), db ++ [t])
    else (respond 500 (Msg "Server error"), db).
Proof.
  intros Htitle t. unfold post_tasks. rewrite Htitle. simpl.
  unfold save_new. fold t. destruct (accepts M None t); reflexivity.
Qed.

(** PUT by the owner: the schema alone decides. *)
Lemma put_task_owned (M : Model) (env : Env) (uid id : string)
  (body : JsObject) (db : Collection) (task : Task) :
  findById M id db = Ok (Some task) ->
  user task = uid ->
  put_task M env uid id body db
  = if accepts M (Some task) (updated task body) then
      if Task_eqb (updated task body) task then
        (respond 200 (TaskDoc (updated task body)), db)
      else
        (respond 200 (TaskDoc (touch env (updated task body))),
         replace_first (has_id (_id task)) (touch env (updated task body))
           db)
    else (respond 500 (Msg "Server error"), db).
Proof.
  intros Hfound Hown. unfold put_task. rewrite Hfound. simpl.
  rewrite Hown, String.eqb_refl. simpl.
  unfold save_existing. fold (updated task body).
  destruct (accepts M (Some task) (updated task body)); [|reflexivity].
  destruct (Task_eqb (updated task body) task); reflexivity.
Qed.

Lemma findById_found (M : Model) (id : string) (db : Collection)
  (task : Task) :
  findById M id db = Ok (Some task) ->
  exists oid, castObjectId M id = Some oid
              /\ find (has_id oid) db = Some task /\ _id task = oid.
Proof.
  unfold findById. destruct (castObjectId M id) as [oid|]; [|discriminate].
  intros H. injection H as H. exists oid. repeat split; [exact H|].
  apply find_some in H. now apply has_id_iff.
Qed.

(** After a PUT by the owner the task is still found under its id; it is
    the updated document, up to [updatedAt], when the schema accepted it
    and the document that was there otherwise. *)
Lemma put_task_stored (M : Model) (env : Env) (uid id : string)
  (body : JsObject) (db : Collection) (task : Task) :
  findById M id db = Ok (Some task) ->
  user task = uid ->
  exists stored,
    findById M id (snd (put_task M env uid id body db)) = Ok (Some stored)
    /\ (if accepts M (Some task) (updated task body) then
          fst (put_task M env uid id body db) = respond 200 (TaskDoc stored)
          /\ (stored = updated task body
              \/ stored = touch env (updated task body))
        else
          fst (put_task M env uid id body db)
          = respond 500 (Msg "Server error")
          /\ stored = task).
Proof.
  intros Hfound Hown.
  rewrite (put_task_owned M env uid id body db task Hfound Hown).
  destruct (findById_found M id db task Hfound) as (oid & Hcast & Hfind & Hid).
  destruct (accepts M (Some task) (updated task body)).
  - destruct (Task_eqb (updated task body) task) eqn:Heq.
    + apply Task_eqb_eq in Heq. exists (updated task body). simpl.
      split; [now rewrite Heq | split; [reflexivity | now left]].
    + exists (touch env (updated task body)). simpl.
      split; [|split; [reflexivity | now right]].
      unfold findById. rewrite Hcast, Hid. f_equal.
      apply (find_replace_first _ _ _ task); [exact Hfind|].
      apply has_id_iff. exact Hid.
  - exists task. simpl. split; [exact Hfound | split; reflexivity].
Qed.

(** C4.  The due date is nullable.  A POST /api/tasks whose [dueDate] is
    absent or falsy, with a title and a document that the schema accepts,
    stores the task with [dueDate] null; a PUT /api/tasks/:id by the owner
    whose [dueDate] is the empty string, with a document that the schema
    accepts, leaves the stored task with [dueDate] null. *)
Theorem dueDate_is_nullable (M : Model) (env : Env) (uid : string)
  (db : Collection) :
  (forall body,
     truthy (lookup "dueDate" body) = false ->
     truthy (lookup "title" body) = true ->
     accepts M None
       (new_Task M env uid (lookup "title" body) (lookup "description" body)
          (lookup "priority" body) JNull) = true ->
     exists t,
       post_tasks M env uid body db = (respond 201 (TaskDoc t), db ++ [t])
       /\ dueDate t = JNull)
  /\ (forall id body task,
        findById M id db = Ok (Some task) ->
        user task = uid ->
        lookup "dueDate" body = JStr EmptyString ->
        accepts M (Some task) (updated task body) = true ->
        exists stored db',
          put_task M env uid id body db
          = (respond 200 (TaskDoc stored), db')
          /\ findById M id db' = Ok (Some stored)
          /\ dueDate stored = JNull).
Proof.
  split.
  - intros body Hdue Htitle Hacc.
    rewrite (post_tasks_titled M env uid body db Htitle).
    unfold js_or. rewrite Hdue, Hacc.
    eexists. split; reflexivity.
  - intros id body task Hfound Hown Hdue Hacc.
    destruct (put_task_stored M env uid id body db task Hfound Hown)
      as (stored & Hstored & Hres).
    rewrite Hacc in Hres. destruct Hres as [Hresp Hwhich].
    exists stored, (snd (put_task M env uid id body db)).
    split; [|split; [exact Hstored|]].
    + rewrite <- Hresp. apply surjective_pairing.
    + assert (Hnull : dueDate (updated task body) = JNull)
        by (unfold updated, update_fields; simpl; now rewrite Hdue).
      destruct Hwhich as [-> | ->]; [exact Hnull | simpl; exact Hnull].
Qed.

Lemma dueDate_is_nullable_witness :
  (exists t,
     post_tasks plain_model sample_env alice
       [("title", JStr "Water plants"); ("dueDate", JStr EmptyString)]
       sample_db
     = (respond 201 (TaskDoc t), sample_db ++ [t])
     /\ dueDate t = JNull)
  /\ (exists stored db',
        put_task plain_model sample_env alice (_id task1)
          [("dueDate", JStr EmptyString)] sample_db
        = (respond 200 (TaskDoc stored), db')
        /\ findById plain_model (_id task1) db' = Ok (Some stored)
        /\ dueDate stored = JNull).
Proof.
  destruct (dueDate_is_nullable plain_model sample_env alice sample_db)
    as [Hpost Hput].
  split.
  - apply Hpost; reflexivity.
  - apply (Hput (_id task1) _ task1); reflexivity.
Defined.

(** C8.  After a PUT /api/tasks/:id by the owner of an existing task, the
    stored task has the [user] and the [createdAt] it had; each of title,
    description, priority, dueDate and status that the body leaves out has
    the value it had, and so have title, priority and status when the body
    gives them as the empty string; an empty-string description, in a
    document that the schema accepts, replaces the description. *)
Theorem put_keeps_the_rest (M : Model) (env : Env) (uid id : string)
  (body : JsObject) (db : Collection) (task : Task) :
  findById M id db = Ok (Some task) ->
  user task = uid ->
  exists stored,
    findById M id (snd (put_task M env uid id body db)) = Ok (Some stored)
    /\ (accepts M (Some task) (updated task body) = true ->
        fst (put_task M env uid id body db) = respond 200 (TaskDoc stored))
    /\ _id stored = _id task
    /\ user stored = user task
    /\ createdAt stored = createdAt task
    /\ (lookup "title" body = JUndefined
        \/ lookup "title" body = JStr EmptyString ->
        title stored = title task)
    /\ (lookup "description" body = JUndefined ->
        description stored = description task)
    /\ (lookup "priority" body = JUndefined
        \/ lookup "priority" body = JStr EmptyString ->
        priority stored = priority task)
    /\ (lookup "dueDate" body = JUndefined -> dueDate stored = dueDate task)
    /\ (lookup "status" body = JUndefined
        \/ lookup "status" body = JStr EmptyString ->
        status stored = status task)
    /\ (lookup "description" body = JStr EmptyString ->
        accepts M (Some task) (updated task body) = true ->
        description stored = JStr EmptyString).
Proof.
  intros Hfound Hown.
  destruct (put_task_stored M env uid id body db task Hfound Hown)
    as (stored & Hstored & Hres).
  exists stored. split; [exact Hstored|].
  destruct (accepts M (Some task) (updated task body)).
  - destruct Hres as [Hresp Hwhich].
    split; [intros _; exact Hresp|].
    assert (Hfields :
              _id stored = _id (updated task body)
              /\ user stored = user (updated task body)
              /\ createdAt stored = createdAt (updated task body)
              /\ title stored = title (updated task body)
              /\ description stored = description (updated task body)
              /\ priority stored = priority (updated task body)
              /\ dueDate stored = dueDate (updated task body)
              /\ status stored = status (updated task body))
      by (destruct Hwhich as [-> | ->]; repeat split).
    destruct Hfields as (-> & -> & -> & -> & -> & -> & -> & ->).
    unfold updated, update_fields, js_or; simpl.
    repeat split; try reflexivity.
    + intros [-> | ->]; reflexivity.
    + intros ->; reflexivity.
    + intros [-> | ->]; reflexivity.
    + intros ->; reflexivity.
    + intros [-> | ->]; reflexivity.
    + intros -> _; reflexivity.
  - destruct Hres as [_ ->].
    repeat split; try reflexivity; discriminate.
Qed.

Lemma put_keeps_the_rest_witness :
  exists stored,
    findById plain_model (_id task1)
      (snd (put_task plain_model sample_env alice (_id task1)
              [("title", JStr EmptyString);
               ("description", JStr EmptyString);
               ("status", JStr "completed")] sample_db))
    = Ok (Some stored)
    /\ user stored = alice
    /\ createdAt stored = 1000
    /\ title stored = JStr "Buy groceries"
    /\ priority stored = JStr "high"
    /\ description stored = JStr EmptyString.
Proof.
  destruct (put_keeps_the_rest plain_model sample_env alice (_id task1)
              [("title", JStr EmptyString);
               ("description", JStr EmptyString);
               ("status", JStr "completed")] sample_db task1
              eq_refl eq_refl)
    as (stored & Hs & _ & _ & Hu & Hc & Ht & _ & Hp & _ & _ & Hd).
  exists stored.
  split; [exact Hs|].
  split; [exact Hu|].
  split; [exact Hc|].
  split; [apply Ht; now right|].
  split; [apply Hp; now left|].
  apply Hd; reflexivity.
Defined.

(* ================================================================== *)
(** * Unknown ids and request validation *)
(* ================================================================== *)

(** C9, as stated, fails: an id that is no ObjectId matches no stored task,
    and PUT and DELETE answer it 400 "Invalid task ID", not 404. *)
Lemma malformed_id_is_not_404 :
  (forall t, In t sample_db -> _id t <> "abc")
  /\ put_task plain_model sample_env alice "abc" [] sample_db
     = (respond 400 (Msg "Invalid task ID"), sample_db)
  /\ delete_task plain_model alice "abc" sample_db
     = (respond 400 (Msg "Invalid task ID"), sample_db)
  /\ fst (put_task plain_model sample_env alice "abc" [] sample_db)
     <> respond 404 (Msg "Task not found")
  /\ fst (delete_task plain_model alice "abc" sample_db)
     <> respond 404 (Msg "Task not found").
Proof.
  split.
  - intros t [<- | [<- | [<- | []]]]; discriminate.
  - repeat split; discriminate.
Qed.

(** C9, amended.  When the id of a PUT /api/tasks/:id or DELETE
    /api/tasks/:id denotes an ObjectId that no stored task has, the handler
    answers 404 "Task not found"; when the id denotes no ObjectId, it
    answers 400 "Invalid task ID"; in both cases the collection is left as
    it was. *)
Theorem unknown_id_is_404 (M : Model) (env : Env) (uid id : string)
  (body : JsObject) (db : Collection) :
  (forall oid,
     castObjectId M id = Some oid ->
     (forall t, In t db -> _id t <> oid) ->
     put_task M env uid id body db = (respond 404 (Msg "Task not found"), db)
     /\ delete_task M uid id db = (respond 404 (Msg "Task not found"), db))
  /\ (castObjectId M id = None ->
      put_task M env uid id body db
      = (respond 400 (Msg "Invalid task ID"), db)
      /\ delete_task M uid id db
         = (respond 400 (Msg "Invalid task ID"), db)).
Proof.
  split.
  - intros oid Hcast Hnone.
    unfold put_task, delete_task, findById.
    rewrite Hcast, (find_absent oid db Hnone). split; reflexivity.
  - intros Hcast.
    unfold put_task, delete_task, findById.
    rewrite Hcast. split; reflexivity.
Qed.

Lemma unknown_id_is_404_witness :
  (put_task plain_model sample_env alice "65c0000000000000000000ff"
     [("title", JStr "x")] sample_db
   = (respond 404 (Msg "Task not found"), sample_db)
   /\ delete_task plain_model alice "65c0000000000000000000ff" sample_db
      = (respond 404 (Msg "Task not found"), sample_db))
  /\ (put_task plain_model sample_env alice "not-an-id"
        [("title", JStr "x")] sample_db
      = (respond 400 (Msg "Invalid task ID"), sample_db)
      /\ delete_task plain_model alice "not-an-id" sample_db
         = (respond 400 (Msg "Invalid task ID"), sample_db)).
Proof.
  split.
  - apply (proj1 (unknown_id_is_404 plain_model sample_env alice
                    "65c0000000000000000000ff" [("title", JStr "x")]
                    sample_db) "65c0000000000000000000ff").
    + reflexivity.
    + intros t [<- | [<- | [<- | []]]]; discriminate.
  - apply (proj2 (unknown_id_is_404 plain_model sample_env alice
                    "not-an-id" [("title", JStr "x")] sample_db)).
    reflexivity.
Defined.

(** C7, as stated, fails: POST /api/tasks rejects a body on its title.
    Under a schema without validators, a body with an empty title is
    answered 400 "Task title is required" and the same body with a title
    is answered 201. *)
Lemma empty_title_is_rejected :
  post_tasks plain_model sample_env alice
    [("title", JStr EmptyString); ("description", JStr "no title")]
    sample_db
  = (respond 400 (Msg "Task title is required"), sample_db)
  /\ statusCode
       (fst (post_tasks plain_model sample_env alice
               [("title", JStr "a title");
                ("description", JStr "no title")] sample_db))
     = 201.
Proof. split; reflexivity. Qed.

(** C7, amended.  The one condition that the handlers put on the fields of
    a task is that POST /api/tasks needs a truthy title: it answers 400
    "Task title is required" exactly when the title is falsy.  With a
    title, whatever the description, priority and dueDate, the answer is
    201 when the schema accepts the document and 500 otherwise; a PUT by
    the owner, whatever the body, is answered 200 when the schema accepts
    the updated document and 500 otherwise. *)
Theorem only_title_is_required (M : Model) (env : Env) (uid : string)
  (body : JsObject) (db : Collection) :
  (post_tasks M env uid body db
   = (respond 400 (Msg "Task title is required"), db)
   <-> truthy (lookup "title" body) = false)
  /\ (truthy (lookup "title" body) = true ->
      statusCode (fst (post_tasks M env uid body db))
      = if accepts M None
             (new_Task M env uid (lookup "title" body)
                (lookup "description" body) (lookup "priority" body)
                (js_or (lookup "dueDate" body) JNull))
        then 201 else 500)
  /\ (forall id task,
        findById M id db = Ok (Some task) ->
        user task = uid ->
        statusCode (fst (put_task M env uid id body db))
        = if accepts M (Some task) (updated task body) then 200 else 500).
Proof.
  split; [|split].
  - destruct (truthy (lookup "title" body)) eqn:Htitle.
    + rewrite (post_tasks_titled M env uid body db Htitle).
      split; [|discriminate].
      destruct (accepts M None _); discriminate.
    + unfold post_tasks. rewrite Htitle. simpl. split; reflexivity.
  - intros Htitle.
    rewrite (post_tasks_titled M env uid body db Htitle).
    destruct (accepts M None _); reflexivity.
  - intros id task Hfound Hown.
    rewrite (put_task_owned M env uid id body db task Hfound Hown).
    destruct (accepts M (Some task) (updated task body)); [|reflexivity].
    destruct (Task_eqb (updated task body) task); reflexivity.
Qed.

Lemma only_title_is_required_witness :
  statusCode
    (fst (post_tasks plain_model sample_env alice
            [("title", JStr "t"); ("priority", JNum 42);
             ("dueDate", JBool true)] sample_db)) = 201
  /\ statusCode
       (fst (put_task plain_model sample_env alice (_id task3)
               [("title", JStr "t"); ("priority", JNum 42);
                ("dueDate", JBool true)] sample_db)) = 200.
Proof.
  destruct (only_title_is_required plain_model sample_env alice
              [("title", JStr "t"); ("priority", JNum 42);
               ("dueDate", JBool true)] sample_db)
    as (_ & Hpost & Hput).
  split.
  - apply Hpost. reflexivity.
  - apply (Hput (_id task3) task3); reflexivity.
Defined.

(* ================================================================== *)
(** * The suggestion handler *)
(* ================================================================== *)

Lemma index_key_0 : index_key 0 = "0".
Proof. reflexivity. Qed.

(** One guarded step of the test by property name, followed by the rest
    [K] of the test and the rest [R] of the read. *)
Lemma field_step (k : string) (v : jsval) (G : jsval -> option jsval)
  (K : jsval -> result bool) (R : jsval -> result jsval) :
  String.eqb k "length" = false ->
  (forall y, match G y with
             | Some t => K y = Ok true /\ R y = Ok t
             | None => K y <> Ok true
             end) ->
  match opt_bind (guarded_field k v) G with
  | Some t =>
      (y <- get_prop v k ;; if negb (truthy y) then Ok false else K y)
      = Ok true
      /\ (y <- get_prop v k ;; R y) = Ok t
  | None =>
      (y <- get_prop v k ;; if negb (truthy y) then Ok false else K y)
      <> Ok true
  end.
Proof.
  intros Hk Hrest.
  destruct v as [| |b|n|s|l|ps]; simpl; try rewrite Hk; simpl;
    try discriminate.
  destruct (truthy (lookup k ps)); simpl; [apply Hrest | discriminate].
Qed.

(** One guarded step by index 0. *)
Lemma index_step (E : Engine) (v : jsval) (G : jsval -> option jsval)
  (K : jsval -> result bool) (R : jsval -> result jsval) :
  (forall s, G (JStr s) = None) ->
  G JUndefined = None ->
  (forall y, match G y with
             | Some t => K y = Ok true /\ R y = Ok t
             | None => K y <> Ok true
             end) ->
  match opt_bind (guarded_first E v) G with
  | Some t =>
      (len <- get_prop v "length" ;;
       if negb (js_gt0 E len) then Ok false
       else y <- get_index v 0 ;; K y) = Ok true
      /\ (y <- get_index v 0 ;; R y) = Ok t
  | None =>
      (len <- get_prop v "length" ;;
       if negb (js_gt0 E len) then Ok false
       else y <- get_index v 0 ;; K y) <> Ok true
  end.
Proof.
  intros Hstr Hundef Hrest.
  destruct v as [| |b|n|s|l|ps]; simpl; try discriminate.
  - destruct (0 <? str_length s); simpl; [|discriminate].
    destruct (String.get 0 s) as [c|].
    + specialize (Hrest (JStr (String c EmptyString))).
      now rewrite Hstr in Hrest.
    + specialize (Hrest JUndefined). now rewrite Hundef in Hrest.
  - destruct l as [|x l]; simpl; [discriminate|]. apply Hrest.
  - destruct (js_gt0 E (lookup "length" ps)); simpl; [|discriminate].
    apply Hrest.
Qed.

(** The last step: the text itself. *)
Lemma text_step (p0 : jsval) :
  match guarded_field "text" p0 with
  | Some t =>
      (text <- get_prop p0 "text" ;; Ok (truthy text)) = Ok true
      /\ get_prop p0 "text" = Ok t
  | None => (text <- get_prop p0 "text" ;; Ok (truthy text)) <> Ok true
  end.
Proof.
  destruct p0 as [| |b|n|s|l|ps]; simpl; try discriminate.
  destruct (truthy (lookup "text" ps)); simpl.
  - split; reflexivity.
  - discriminate.
Qed.

(** The handler's test holds exactly when the guarded path leads to a
    text, and that text is what the handler then parses. *)
Lemma valid_structure_guarded (E : Engine) (x : jsval) :
  match guarded_text E x with
  | Some t => valid_structure E x = Ok true /\ raw_text x = Ok t
  | None => valid_structure E x <> Ok true
  end.
Proof.
  unfold guarded_text, valid_structure, raw_text.
  apply field_step; [reflexivity|]. intros candidates.
  apply index_step; [reflexivity | reflexivity |]. intros c0.
  apply field_step; [reflexivity|]. intros content.
  apply field_step; [reflexivity|]. intros parts.
  apply index_step; [reflexivity | reflexivity |]. intros p0.
  apply text_step.
Qed.

(** A path through arrays and objects that ends in a truthy text is a
    guarded path. *)
Lemma json_path_is_guarded (E : Engine) (x t : jsval) :
  json_path_text x = Some t -> truthy t = true -> guarded_text E x = Some t.
Proof.
  unfold json_path_text, guarded_text, json_field, json_first,
    guarded_field, guarded_first, opt_bind.
  intros Hpath Ht.
  destruct x as [| | | | | |ps]; try discriminate.
  destruct (lookup "candidates" ps) as [| | | | |[|c0 cs]|];
    try discriminate; simpl in *.
  destruct c0 as [| | | | | |cps]; try discriminate.
  destruct (lookup "content" cps) as [| | | | | |ks]; try discriminate;
    simpl in *.
  destruct (lookup "parts" ks) as [| | | | |[|p0 ps0]|];
    try discriminate; simpl in *.
  destruct p0 as [| | | | | |tps]; try discriminate.
  destruct (lookup "text" tps) eqn:Htext; try discriminate;
    injection Hpath as <-; rewrite Ht; reflexivity.
Qed.

(** With a title and a key the handler makes one call and answers from
    what comes back. *)
Lemma suggest_run (E : Engine) (net : Network) (env_key : option string)
  (body : JsObject) :
  truthy (lookup "mainTaskTitle" body) = true ->
  GEMINI_API_KEY env_key <> EmptyString ->
  let rq := gemini_request E (GEMINI_API_KEY env_key)
              (lookup "mainTaskTitle" body) in
  suggest E net env_key body = (settled E (net [] rq), [rq]).
Proof.
  intros Htitle Hkey rq. unfold suggest, post_suggest.
  rewrite Htitle. simpl.
  apply String.eqb_neq in Hkey. rewrite Hkey. simpl. reflexivity.
Qed.

(** The handler on an OK response, case by case. *)
Lemma on_response_ok (E : Engine) (r : FetchResponse) :
  resp_ok r = true ->
  on_response E r
  = match JSON_parse E (resp_text r) with
    | Throw e => Throw e
    | Ok result_ =>
        match guarded_text E result_ with
        | Some text =>
            match JSON_parse E (ToString E text) with
            | Ok s =>
                if is_array s then Ok (respond 200 (Suggestions s))
                else
                  Ok (respond 500
                        (MsgDetails
                           "Failed to parse AI suggestions (invalid format from Gemini)."
                           "Parsed suggestions are not an array."))
            | Throw e =>
                Ok (respond 500
                      (MsgDetails
                         "Failed to parse AI suggestions (invalid format from Gemini)."
                         (message e)))
            end
        | None =>
            match valid_structure E result_ with
            | Throw e => Throw e
            | Ok _ =>
                Ok (respond 500
                      (Msg "No valid AI suggestions received from the service."))
            end
        end
    end.
Proof.
  intros Hok. unfold on_response. rewrite Hok. simpl.
  destruct (JSON_parse E (resp_text r)) as [result_|e]; simpl;
    [|reflexivity].
  pose proof (valid_structure_guarded E result_) as Hg.
  destruct (guarded_text E result_) as [text|].
  - destruct Hg as [-> ->]. simpl. unfold parse_suggestions.
    destruct (JSON_parse E (ToString E text)) as [s|e]; simpl;
      [|reflexivity].
    destruct (is_array s); reflexivity.
  - destruct (valid_structure E result_) as [[|]|e]; simpl;
      [congruence | reflexivity | reflexivity].
Qed.

(** Without a title or without a key the handler returns at once. *)
Lemma suggest_returns_early (E : Engine) (net : Network)
  (env_key : option string) (body : JsObject) :
  truthy (lookup "mainTaskTitle" body) = false
  \/ GEMINI_API_KEY env_key = EmptyString ->
  snd (suggest E net env_key body) = [].
Proof.
  unfold suggest, post_suggest.
  intros [-> | ->]; [reflexivity|].
  destruct (truthy (lookup "mainTaskTitle" body)); reflexivity.
Qed.

(** C10.  POST /api/tasks/suggest makes no outbound call when the body has
    no truthy [mainTaskTitle], and answers 400; it makes none when
    GEMINI_API_KEY is empty, and answers, the title being there, 500 with
    the message that the service is not configured. *)
Theorem suggest_guards_before_fetch (E : Engine) (net : Network)
  (env_key : option string) (body : JsObject) :
  (truthy (lookup "mainTaskTitle" body) = false ->
   suggest E net env_key body
   = (respond 400 (Msg "Main task title is required for suggestions."), []))
  /\ (GEMINI_API_KEY env_key = EmptyString ->
      snd (suggest E net env_key body) = []
      /\ (truthy (lookup "mainTaskTitle" body) = true ->
          suggest E net env_key body
          = (respond 500
               (Msg "AI service not configured: GEMINI_API_KEY is missing."),
             []))).
Proof.
  unfold suggest, post_suggest. split.
  - intros ->. reflexivity.
  - intros ->. simpl.
    destruct (truthy (lookup "mainTaskTitle" body)); simpl.
    + split; [reflexivity | intros _; reflexivity].
    + split; [reflexivity | discriminate].
Qed.

Lemma suggest_guards_before_fetch_witness :
  suggest core_engine (answering (ok_with gemini_text)) sample_key
    [("title", JStr "Plan a trip")]
  = (respond 400 (Msg "Main task title is required for suggestions."), [])
  /\ suggest core_engine (answering (ok_with gemini_text)) None
       sample_suggest_body
     = (respond 500
          (Msg "AI service not configured: GEMINI_API_KEY is missing."),
        []).
Proof.
  split.
  - apply (proj1 (suggest_guards_before_fetch core_engine
                    (answering (ok_with gemini_text)) sample_key
                    [("title", JStr "Plan a trip")])).
    reflexivity.
  - apply (proj2 (suggest_guards_before_fetch core_engine
                    (answering (ok_with gemini_text)) None
                    sample_suggest_body)); reflexivity.
Defined.

(** C5.  POST /api/tasks/suggest makes at most one outbound call, whatever
    the network answers.  When the call is rejected, when it comes back
    with a status outside 200-299, or when its body is not JSON, the handler
    answers with an error, having made that one call only. *)
Theorem suggest_calls_at_most_once (E : Engine) (net : Network)
  (env_key : option string) (body : JsObject) :
  (List.length (snd (suggest E net env_key body)) <= 1)%nat
  /\ forall rq,
       snd (suggest E net env_key body) = [rq] ->
       (forall e,
          net [] rq = Throw e ->
          fst (suggest E net env_key body)
          = respond 500
              (MsgDetails "Server error while fetching AI suggestions."
                 (message e)))
       /\ (forall r,
             net [] rq = Ok r -> resp_ok r = false ->
             fst (suggest E net env_key body)
             = respond (resp_status r)
                 (MsgDetails ("Gemini API error: " ++ resp_statusText r)
                    (resp_text r)))
       /\ (forall r e,
             net [] rq = Ok r -> resp_ok r = true ->
             JSON_parse E (resp_text r) = Throw e ->
             fst (suggest E net env_key body)
             = respond 500
                 (MsgDetails "Server error while fetching AI suggestions."
                    (message e)))
       /\ ((exists e, net [] rq = Throw e)
           \/ (exists r, net [] rq = Ok r
                 /\ (resp_ok r = false
                     \/ exists e, JSON_parse E (resp_text r) = Throw e)) ->
           is_error_response (fst (suggest E net env_key body)) = true).
Proof.
  destruct (truthy (lookup "mainTaskTitle" body)) eqn:Htitle.
  2:{ rewrite (suggest_returns_early E net env_key body (or_introl Htitle)).
      simpl. split; [lia | discriminate]. }
  destruct (String.eqb_spec (GEMINI_API_KEY env_key) EmptyString)
    as [Hkey|Hkey].
  { rewrite (suggest_returns_early E net env_key body (or_intror Hkey)).
    simpl. split; [lia | discriminate]. }
  rewrite (suggest_run E net env_key body Htitle Hkey). simpl.
  split; [lia|]. intros rq Hrq. injection Hrq as Hrq. rewrite Hrq.
  assert (Hrej : forall e,
             net [] rq = Throw e ->
             settled E (net [] rq)
             = respond 500
                 (MsgDetails "Server error while fetching AI suggestions."
                    (message e))).
  { intros e ->. reflexivity. }
  assert (Hbad : forall r,
             net [] rq = Ok r -> resp_ok r = false ->
             settled E (net [] rq)
             = respond (resp_status r)
                 (MsgDetails ("Gemini API error: " ++ resp_statusText r)
                    (resp_text r))).
  { intros r -> Hno. unfold settled, on_response. simpl.
    rewrite Hno. reflexivity. }
  assert (Hmal : forall r e,
             net [] rq = Ok r -> resp_ok r = true ->
             JSON_parse E (resp_text r) = Throw e ->
             settled E (net [] rq)
             = respond 500
                 (MsgDetails "Server error while fetching AI suggestions."
                    (message e))).
  { intros r e -> Hok Hparse. unfold settled. simpl.
    rewrite (on_response_ok E r Hok), Hparse. reflexivity. }
  split; [exact Hrej|]. split; [exact Hbad|]. split; [exact Hmal|].
  intros [(e & Hthrow) | (r & Hr & [Hno | (e' & Hparse)])].
  - rewrite (Hrej e Hthrow). reflexivity.
  - rewrite (Hbad r Hr Hno). unfold is_error_response, respond. simpl.
    unfold resp_ok in Hno. rewrite Hno. reflexivity.
  - destruct (resp_ok r) eqn:Hok.
    + rewrite (Hmal r e' Hr Hok Hparse). reflexivity.
    + rewrite (Hbad r Hr Hok). unfold is_error_response, respond. simpl.
      unfold resp_ok in Hok. rewrite Hok. reflexivity.
Qed.

Lemma suggest_calls_at_most_once_witness :
  fst (suggest core_engine (answering unavailable) sample_key
         sample_suggest_body)
  = respond 503
      (MsgDetails "Gemini API error: Service Unavailable" "overloaded")
  /\ is_error_response
       (fst (suggest core_engine (answering unavailable) sample_key
               sample_suggest_body)) = true.
Proof.
  destruct (suggest_calls_at_most_once core_engine (answering unavailable)
              sample_key sample_suggest_body) as [_ Hcall].
  destruct (Hcall (gemini_request core_engine "test-key"
                     (JStr "Plan a trip")) eq_refl)
    as (_ & Hbad & _ & Herr).
  split.
  - apply (Hbad unavailable); reflexivity.
  - apply Herr. right. exists unavailable.
    split; [reflexivity | left; reflexivity].
Defined.

(** C6, as stated, fails, however the path is read.  Take two OK
    responses, one with [candidates] an object that has a [length] of 1 and
    a property [0], one with the same object without the [length].  The
    first is answered 200 and the second 500.  Read through arrays, the
    path finds no text in the first; read as the JavaScript expression, it
    finds in the second a text that parses to an array. *)
Lemma array_like_candidates :
  fst (suggest core_engine (answering (ok_with array_like_text))
         sample_key sample_suggest_body)
  = respond 200 (Suggestions (JArr []))
  /\ fst (suggest core_engine (answering (ok_with no_length_text))
            sample_key sample_suggest_body)
     = respond 500 (Msg "No valid AI suggestions received from the service.")
  /\ ~ ok_iff_text_parses json_path_text core_engine
  /\ ~ ok_iff_text_parses js_path_text core_engine.
Proof.
  split; [reflexivity|]. split; [reflexivity|]. split.
  - intros Hclaim.
    destruct (Hclaim (answering (ok_with array_like_text)) sample_key
                sample_suggest_body (ok_with array_like_text)
                eq_refl ltac:(discriminate) eq_refl eq_refl)
      as [Hparses _].
    destruct Hparses as (x & t & s & Hx & Hpath & _).
    + exists (JArr []). reflexivity.
    + vm_compute in Hx. injection Hx as <-. discriminate Hpath.
  - intros Hclaim.
    destruct (Hclaim (answering (ok_with no_length_text)) sample_key
                sample_suggest_body (ok_with no_length_text)
                eq_refl ltac:(discriminate) eq_refl eq_refl)
      as [_ Hanswer].
    destruct Hanswer as (s & Hs).
    + eexists. exists (JStr "[]"), (JArr []).
      split; [vm_compute; reflexivity|].
      repeat split.
    + discriminate Hs.
Qed.

(** C6, amended.  For an OK response of the external service, POST
    /api/tasks/suggest answers 200 with [{ suggestions }] if and only if
    the body is JSON in which candidates[0].content.parts[0].text is
    reached through truthy properties, [candidates] and [parts] each being
    a non-empty array or an object with a [length] greater than 0, the text
    is truthy, and [JSON.parse] of the text is an array, which is then the
    suggestions; every other OK response is answered 500 with an error
    message. *)
Theorem suggest_ok_response (E : Engine) (net : Network)
  (env_key : option string) (body : JsObject) (r : FetchResponse) :
  truthy (lookup "mainTaskTitle" body) = true ->
  GEMINI_API_KEY env_key <> EmptyString ->
  net [] (gemini_request E (GEMINI_API_KEY env_key)
            (lookup "mainTaskTitle" body)) = Ok r ->
  resp_ok r = true ->
  (forall s,
     fst (suggest E net env_key body) = respond 200 (Suggestions s)
     <-> exists result_ text,
           JSON_parse E (resp_text r) = Ok result_
           /\ guarded_text E result_ = Some text
           /\ JSON_parse E (ToString E text) = Ok s
           /\ is_array s = true)
  /\ ((exists s,
         fst (suggest E net env_key body) = respond 200 (Suggestions s))
      \/ (statusCode (fst (suggest E net env_key body)) = 500
          /\ is_error_response (fst (suggest E net env_key body)) = true)).
Proof.
  intros Htitle Hkey Hnet Hok.
  rewrite (suggest_run E net env_key body Htitle Hkey). simpl.
  rewrite Hnet. unfold settled. simpl.
  rewrite (on_response_ok E r Hok).
  assert (Hno : forall resp : Response,
             statusCode resp = 500 ->
             is_error_response resp = true ->
             (forall s, resp <> respond 200 (Suggestions s)) ->
             (forall s,
                (exists result_ text,
                   JSON_parse E (resp_text r) = Ok result_
                   /\ guarded_text E result_ = Some text
                   /\ JSON_parse E (ToString E text) = Ok s
                   /\ is_array s = true) -> False) ->
             (forall s,
                resp = respond 200 (Suggestions s)
                <-> exists result_ text,
                      JSON_parse E (resp_text r) = Ok result_
                      /\ guarded_text E result_ = Some text
                      /\ JSON_parse E (ToString E text) = Ok s
                      /\ is_array s = true)
             /\ ((exists s, resp = respond 200 (Suggestions s))
                 \/ (statusCode resp = 500
                     /\ is_error_response resp = true))).
  { intros resp Hcode Herr Hne Hnone. split; [|right; now split].
    intros s. split; [intros Heq; now destruct (Hne s) | intros Hex].
    now destruct (Hnone s). }
  destruct (JSON_parse E (resp_text r)) as [result_|e] eqn:Hbody.
  2:{ apply Hno; try reflexivity; [discriminate|].
      intros s (x & t & Hx & _). discriminate Hx. }
  destruct (guarded_text E result_) as [text|] eqn:Hguard.
  2:{ destruct (valid_structure E result_) as [b|e];
        (apply Hno; try reflexivity; [discriminate|]);
        intros s (x & t & Hx & Hg & _); injection Hx as <-;
        rewrite Hguard in Hg; discriminate Hg. }
  destruct (JSON_parse E (ToString E text)) as [s0|e] eqn:Hparse.
  2:{ apply Hno; try reflexivity; [discriminate|].
      intros s (x & t & Hx & Hg & Hp & _).
      injection Hx as <-. rewrite Hguard in Hg. injection Hg as <-.
      rewrite Hparse in Hp. discriminate Hp. }
  destruct (is_array s0) eqn:Harr.
  - split; [|left; exists s0; reflexivity].
    intros s. split.
    + intros Heq. injection Heq as <-.
      exists result_, text. repeat split; assumption.
    + intros (x & t & Hx & Hg & Hp & _).
      injection Hx as <-. rewrite Hguard in Hg. injection Hg as <-.
      rewrite Hparse in Hp. injection Hp as <-. reflexivity.
  - apply Hno; try reflexivity; [discriminate|].
    intros s (x & t & Hx & Hg & Hp & Ha).
    injection Hx as <-. rewrite Hguard in Hg. injection Hg as <-.
    rewrite Hparse in Hp. injection Hp as <-.
    rewrite Harr in Ha. discriminate Ha.
Qed.

Lemma suggest_ok_response_witness :
  fst (suggest core_engine (answering (ok_with gemini_text)) sample_key
         sample_suggest_body)
  = respond 200
      (Suggestions (JArr [JStr "Book flights"; JStr "Reserve hotel"])).
Proof.
  destruct (suggest_ok_response core_engine
              (answering (ok_with gemini_text)) sample_key
              sample_suggest_body (ok_with gemini_text)
              eq_refl ltac:(discriminate) eq_refl eq_refl) as [Hiff _].
  apply Hiff.
  eexists. eexists.
  split; [vm_compute; reflexivity|].
  split; [vm_compute; reflexivity|].
  split; vm_compute; reflexivity.
Defined.

(* ================================================================== *)
(** * Further properties of the CRUD handlers *)
(* ================================================================== *)

Lemma filter_remove_first (p q : Task -> bool) (db : Collection) (t : Task) :
  find p db = Some t -> q t = false ->
  filter q (remove_first p db) = filter q db.
Proof.
  induction db as [|x db IH]; simpl; [discriminate|].
  destruct (p x) eqn:Hx; intros Hf Hq.
  - injection Hf as ->. now rewrite Hq.
  - simpl. now rewrite (IH Hf Hq).
Qed.

Lemma filter_replace_first (p q : Task -> bool) (db : Collection)
  (t t' : Task) :
  find p db = Some t -> q t = false -> q t' = false ->
  filter q (replace_first p t' db) = filter q db.
Proof.
  induction db as [|x db IH]; simpl; [discriminate|].
  destruct (p x) eqn:Hx; intros Hf Hq Hq'.
  - injection Hf as ->. simpl. now rewrite Hq, Hq'.
  - simpl. now rewrite (IH Hf Hq Hq').
Qed.

Lemma owned_by_other (uid other : string) (t : Task) :
  other <> uid -> user t = uid -> owned_by other t = false.
Proof.
  intros Hne Hu. unfold owned_by. apply String.eqb_neq. congruence.
Qed.

(** What DELETE by the owner does. *)
Lemma delete_task_owned (M : Model) (uid id : string) (db : Collection)
  (task : Task) :
  findById M id db = Ok (Some task) ->
  user task = uid ->
  delete_task M uid id db
  = (respond 200 (Msg "Task removed"), remove_first (has_id (_id task)) db).
Proof.
  intros Hfound Hown.
  destruct (findById_found M id db task Hfound) as (oid & Hcast & _ & Hid).
  unfold delete_task. rewrite Hfound. simpl.
  rewrite Hown, String.eqb_refl. simpl.
  unfold deleteOne. rewrite Hcast, Hid. reflexivity.
Qed.

(** The collection after PUT, whoever asks. *)
Lemma put_task_collection (M : Model) (env : Env) (uid id : string)
  (body : JsObject) (db : Collection) :
  snd (put_task M env uid id body db) = db
  \/ exists task,
       findById M id db = Ok (Some task) /\ user task = uid
       /\ snd (put_task M env uid id body db)
          = replace_first (has_id (_id task))
              (touch env (updated task body)) db.
Proof.
  destruct (findById M id db) as [[task|]|e] eqn:Hfound.
  - destruct (String.eqb_spec (user task) uid) as [Hown|Hother].
    + rewrite (put_task_owned M env uid id body db task Hfound Hown).
      destruct (accepts M (Some task) (updated task body)); [|now left].
      destruct (Task_eqb (updated task body) task); [now left|].
      right. exists task. repeat split; assumption.
    + left. unfold put_task. rewrite Hfound. simpl.
      apply String.eqb_neq in Hother. now rewrite Hother.
  - left. unfold put_task. now rewrite Hfound.
  - left. unfold put_task. now rewrite Hfound.
Qed.

(** The collection after DELETE, whoever asks. *)
Lemma delete_task_collection (M : Model) (uid id : string)
  (db : Collection) :
  snd (delete_task M uid id db) = db
  \/ exists task,
       findById M id db = Ok (Some task) /\ user task = uid
       /\ snd (delete_task M uid id db)
          = remove_first (has_id (_id task)) db.
Proof.
  destruct (findById M id db) as [[task|]|e] eqn:Hfound.
  - destruct (String.eqb_spec (user task) uid) as [Hown|Hother].
    + right. exists task.
      rewrite (delete_task_owned M uid id db task Hfound Hown).
      repeat split; assumption.
    + left. unfold delete_task. rewrite Hfound. simpl.
      apply String.eqb_neq in Hother. now rewrite Hother.
  - left. unfold delete_task. now rewrite Hfound.
  - left. unfold delete_task. now rewrite Hfound.
Qed.

(** The collection after POST. *)
Lemma post_tasks_collection (M : Model) (env : Env) (uid : string)
  (body : JsObject) (db : Collection) :
  snd (post_tasks M env uid body db) = db
  \/ exists t,
       post_tasks M env uid body db = (respond 201 (TaskDoc t), db ++ [t])
       /\ user t = uid /\ _id t = fresh_id env /\ createdAt t = now env.
Proof.
  destruct (truthy (lookup "title" body)) eqn:Htitle.
  - rewrite (post_tasks_titled M env uid body db Htitle).
    destruct (accepts M None _); [|now left].
    right. eexists. repeat split.
  - left. unfold post_tasks. now rewrite Htitle.
Qed.

(** X1.  Whatever a user asks of POST, PUT and DELETE, the tasks of every
    other user are afterwards what they were, in the same order. *)
Theorem requests_touch_own_tasks_only (M : Model) (env : Env)
  (uid other id : string) (body : JsObject) (db : Collection) :
  other <> uid ->
  filter (owned_by other) (snd (post_tasks M env uid body db))
  = filter (owned_by other) db
  /\ filter (owned_by other) (snd (put_task M env uid id body db))
     = filter (owned_by other) db
  /\ filter (owned_by other) (snd (delete_task M uid id db))
     = filter (owned_by other) db.
Proof.
  intros Hne. split; [|split].
  - destruct (post_tasks_collection M env uid body db)
      as [-> | (t & -> & Hu & _)]; [reflexivity|].
    simpl. rewrite filter_app. simpl.
    rewrite (owned_by_other uid other t Hne Hu). apply app_nil_r.
  - destruct (put_task_collection M env uid id body db)
      as [-> | (task & Hfound & Hu & ->)]; [reflexivity|].
    destruct (findById_found M id db task Hfound) as (oid & _ & Hfind & Hid).
    rewrite Hid.
    apply (filter_replace_first _ _ _ task); [exact Hfind | |];
      apply (owned_by_other uid other); assumption.
  - destruct (delete_task_collection M uid id db)
      as [-> | (task & Hfound & Hu & ->)]; [reflexivity|].
    destruct (findById_found M id db task Hfound) as (oid & _ & Hfind & Hid).
    rewrite Hid.
    apply (filter_remove_first _ _ _ task); [exact Hfind|].
    apply (owned_by_other uid other); assumption.
Qed.

Lemma requests_touch_own_tasks_only_witness :
  filter (owned_by bob)
    (snd (delete_task plain_model alice (_id task1) sample_db))
  = [task2]
  /\ filter (owned_by bob)
       (snd (put_task plain_model sample_env alice (_id task3)
               [("title", JStr "renamed")] sample_db))
     = [task2].
Proof.
  destruct (requests_touch_own_tasks_only plain_model sample_env alice bob
              (_id task1) [] sample_db ltac:(discriminate))
    as (_ & _ & Hdel).
  destruct (requests_touch_own_tasks_only plain_model sample_env alice bob
              (_id task3) [("title", JStr "renamed")] sample_db
              ltac:(discriminate))
    as (_ & Hput & _).
  split; [exact Hdel | exact Hput].
Defined.

(** X2.  A request that POST, PUT or DELETE does not answer with 200 or
    201 leaves the collection as it was, and so does every GET. *)
Theorem refused_requests_write_nothing (M : Model) (env : Env)
  (uid id : string) (body : JsObject) (db : Collection) :
  (statusCode (fst (post_tasks M env uid body db)) <> 201 ->
   snd (post_tasks M env uid body db) = db)
  /\ (statusCode (fst (put_task M env uid id body db)) <> 200 ->
      snd (put_task M env uid id body db) = db)
  /\ (statusCode (fst (delete_task M uid id db)) <> 200 ->
      snd (delete_task M uid id db) = db)
  /\ snd (get_tasks uid db) = db.
Proof.
  split; [|split; [|split]].
  - destruct (post_tasks_collection M env uid body db)
      as [-> | (t & -> & _)]; [reflexivity|].
    simpl. intros H. now contradiction H.
  - destruct (findById M id db) as [[task|]|e] eqn:Hfound.
    + destruct (String.eqb_spec (user task) uid) as [Hown|Hother].
      * rewrite (put_task_owned M env uid id body db task Hfound Hown).
        destruct (accepts M (Some task) (updated task body));
          [|reflexivity].
        destruct (Task_eqb (updated task body) task); [reflexivity|].
        simpl. intros H. now contradiction H.
      * intros _. unfold put_task. rewrite Hfound. simpl.
        apply String.eqb_neq in Hother. now rewrite Hother.
    + intros _. unfold put_task. now rewrite Hfound.
    + intros _. unfold put_task. now rewrite Hfound.
  - destruct (delete_task_collection M uid id db)
      as [-> | (task & Hfound & Hu & _)]; [reflexivity|].
    rewrite (delete_task_owned M uid id db task Hfound Hu).
    simpl. intros H. now contradiction H.
  - reflexivity.
Qed.

Lemma refused_requests_write_nothing_witness :
  snd (post_tasks plain_model sample_env alice
         [("description", JStr "no title")] sample_db) = sample_db
  /\ snd (put_task plain_model sample_env bob (_id task1)
            [("title", JStr "x")] sample_db) = sample_db
  /\ snd (delete_task plain_model alice "nonsense" sample_db) = sample_db.
Proof.
  destruct (refused_requests_write_nothing plain_model sample_env alice
              "nonsense" [("description", JStr "no title")] sample_db)
    as (Hpost & _ & Hdel & _).
  destruct (refused_requests_write_nothing plain_model sample_env bob
              (_id task1) [("title", JStr "x")] sample_db)
    as (_ & Hput & _).
  split; [apply Hpost; discriminate|].
  split; [apply Hput; discriminate | apply Hdel; discriminate].
Defined.

Lemma remove_first_length (p : Task -> bool) (db : Collection) (t : Task) :
  find p db = Some t ->
  List.length db = S (List.length (remove_first p db)).
Proof.
  induction db as [|x db IH]; simpl; [discriminate|].
  destruct (p x); intros Hf; [reflexivity|].
  simpl. now rewrite <- (IH Hf).
Qed.

Lemma remove_first_incl (p : Task -> bool) (db : Collection) (x : Task) :
  In x (remove_first p db) -> In x db.
Proof.
  induction db as [|y db IH]; simpl; [tauto|].
  destruct (p y); simpl; [tauto|].
  intros [-> | Hin]; [now left | right; now apply IH].
Qed.

Lemma remove_first_unique (oid : string) (db : Collection) :
  NoDup (map _id db) ->
  find (has_id oid) (remove_first (has_id oid) db) = None.
Proof.
  induction db as [|x db IH]; simpl; [reflexivity|].
  intros Hnd. inversion Hnd as [|? ? Hnotin Hnd']; subst.
  destruct (has_id oid x) eqn:Hx.
  - apply has_id_iff in Hx. apply find_absent.
    intros t Ht Heq. apply Hnotin. rewrite Hx, <- Heq. now apply in_map.
  - simpl. rewrite Hx. now apply IH.
Qed.

Lemma remove_first_other (oid oid' : string) (db : Collection) :
  oid' <> oid ->
  find (has_id oid') (remove_first (has_id oid) db)
  = find (has_id oid') db.
Proof.
  intros Hne. induction db as [|x db IH]; simpl; [reflexivity|].
  destruct (has_id oid x) eqn:Hx.
  - apply has_id_iff in Hx.
    destruct (has_id oid' x) eqn:Hx'; [|reflexivity].
    apply has_id_iff in Hx'. congruence.
  - simpl. now rewrite IH.
Qed.

Lemma replace_first_other (oid oid' : string) (t' : Task)
  (db : Collection) :
  oid' <> oid -> _id t' = oid ->
  find (has_id oid') (replace_first (has_id oid) t' db)
  = find (has_id oid') db.
Proof.
  intros Hne Hid. induction db as [|x db IH]; simpl; [reflexivity|].
  destruct (has_id oid x) eqn:Hx.
  - apply has_id_iff in Hx. simpl.
    assert (Hx' : has_id oid' x = false)
      by (unfold has_id; apply String.eqb_neq; congruence).
    assert (Ht' : has_id oid' t' = false)
      by (unfold has_id; apply String.eqb_neq; congruence).
    now rewrite Hx', Ht'.
  - simpl. now rewrite IH.
Qed.

Lemma replace_first_keys (oid : string) (t' old : Task) (db : Collection) :
  find (has_id oid) db = Some old ->
  _id t' = oid -> user t' = user old ->
  map _id (replace_first (has_id oid) t' db) = map _id db
  /\ map user (replace_first (has_id oid) t' db) = map user db.
Proof.
  intros Hfind Hid Hu. induction db as [|x db IH]; simpl in *;
    [discriminate|].
  destruct (has_id oid x) eqn:Hx.
  - injection Hfind as ->. apply has_id_iff in Hx. simpl.
    now rewrite Hid, Hx, Hu.
  - simpl. destruct (IH Hfind) as [-> ->]. now split.
Qed.

Lemma remove_first_NoDup (p : Task -> bool) (db : Collection) :
  NoDup (map _id db) -> NoDup (map _id (remove_first p db)).
Proof.
  induction db as [|x db IH]; simpl; [trivial|].
  intros Hnd. inversion Hnd as [|? ? Hnotin Hnd']; subst.
  destruct (p x); [exact Hnd'|].
  simpl. constructor; [|now apply IH].
  intros Hin. apply Hnotin.
  apply in_map_iff in Hin. destruct Hin as (y & Hy & Hin).
  rewrite <- Hy. apply in_map. now apply (remove_first_incl p).
Qed.

(** X3.  DELETE by the owner answers 200 "Task removed" and takes one task
    out of the collection; a task under another id is found as before; and
    when the ids of the collection are unique, the id is found no more, so
    that a second DELETE of it is answered 404. *)
Theorem delete_removes_the_task (M : Model) (uid id : string)
  (db : Collection) (task : Task) :
  findById M id db = Ok (Some task) ->
  user task = uid ->
  exists db',
    delete_task M uid id db = (respond 200 (Msg "Task removed"), db')
    /\ List.length db = S (List.length db')
    /\ (forall oid', oid' <> _id task ->
          find (has_id oid') db' = find (has_id oid') db)
    /\ (NoDup (map _id db) ->
        findById M id db' = Ok None
        /\ delete_task M uid id db'
           = (respond 404 (Msg "Task not found"), db')).
Proof.
  intros Hfound Hown.
  destruct (findById_found M id db task Hfound) as (oid & Hcast & Hfind & Hid).
  exists (remove_first (has_id (_id task)) db).
  split; [now apply delete_task_owned|]. rewrite Hid.
  split; [now apply (remove_first_length _ _ task)|].
  split; [intros oid' Hne; now apply remove_first_other|].
  intros Hnd.
  assert (Hgone : findById M id (remove_first (has_id oid) db) = Ok None)
    by (unfold findById; rewrite Hcast; f_equal;
        now apply remove_first_unique).
  split; [exact Hgone|].
  unfold delete_task. now rewrite Hgone.
Qed.

Lemma delete_removes_the_task_witness :
  delete_task plain_model alice (_id task1) sample_db
  = (respond 200 (Msg "Task removed"), [task2; task3])
  /\ delete_task plain_model alice (_id task1) [task2; task3]
     = (respond 404 (Msg "Task not found"), [task2; task3]).
Proof.
  destruct (delete_removes_the_task plain_model alice (_id task1)
              sample_db task1 eq_refl eq_refl)
    as (db' & Hdel & _ & _ & Hagain).
  assert (Hdb : db' = [task2; task3])
    by (apply (f_equal snd) in Hdel; simpl in Hdel; now symmetry).
  rewrite Hdb in *. split; [exact Hdel|].
  apply Hagain.
  repeat constructor; simpl; intuition discriminate.
Defined.

(** X4.  PUT never adds, removes or reorders tasks and never changes the
    owner of one: the ids and the owners of the collection are afterwards
    what they were, and a task under another id than the one asked for is
    found as before. *)
Theorem put_changes_one_task (M : Model) (env : Env) (uid id : string)
  (body : JsObject) (db : Collection) :
  map _id (snd (put_task M env uid id body db)) = map _id db
  /\ map user (snd (put_task M env uid id body db)) = map user db
  /\ forall oid oid',
       castObjectId M id = Some oid -> oid' <> oid ->
       find (has_id oid') (snd (put_task M env uid id body db))
       = find (has_id oid') db.
Proof.
  destruct (put_task_collection M env uid id body db)
    as [-> | (task & Hfound & Hu & ->)];
    [repeat split; reflexivity|].
  destruct (findById_found M id db task Hfound) as (oid & Hcast & Hfind & Hid).
  rewrite Hid.
  destruct (replace_first_keys oid (touch env (updated task body)) task db
              Hfind Hid eq_refl) as [Hids Husers].
  split; [exact Hids|]. split; [exact Husers|].
  intros oid0 oid' Hcast0 Hne.
  rewrite Hcast in Hcast0. injection Hcast0 as <-.
  now apply replace_first_other.
Qed.

(** X5.  The ids of the collection stay unique: PUT and DELETE keep them
    so, and so does POST when the id given to the new task is not in the
    collection. *)
Theorem ids_stay_unique (M : Model) (env : Env) (uid id : string)
  (body : JsObject) (db : Collection) :
  NoDup (map _id db) ->
  NoDup (map _id (snd (put_task M env uid id body db)))
  /\ NoDup (map _id (snd (delete_task M uid id db)))
  /\ (~ In (fresh_id env) (map _id db) ->
      NoDup (map _id (snd (post_tasks M env uid body db)))).
Proof.
  intros Hnd. split; [|split].
  - destruct (put_task_collection M env uid id body db)
      as [-> | (task & Hfound & _ & ->)]; [exact Hnd|].
    destruct (findById_found M id db task Hfound) as (oid & _ & Hfind & Hid).
    rewrite Hid.
    destruct (replace_first_keys oid (touch env (updated task body)) task
                db Hfind Hid eq_refl) as [-> _].
    exact Hnd.
  - destruct (delete_task_collection M uid id db)
      as [-> | (task & _ & _ & ->)]; [exact Hnd|].
    now apply remove_first_NoDup.
  - intros Hfresh.
    destruct (post_tasks_collection M env uid body db)
      as [-> | (t & -> & _ & Hid & _)]; [exact Hnd|].
    simpl. rewrite map_app. simpl.
    apply NoDup_app; [exact Hnd | repeat constructor; simpl; tauto|].
    intros a Ha [<- | []]. apply Hfresh. now rewrite <- Hid.
Qed.

Lemma ids_stay_unique_witness :
  NoDup (map _id (snd (put_task plain_model sample_env alice (_id task1)
                         [("title", JStr "renamed")] sample_db)))
  /\ NoDup (map _id (snd (delete_task plain_model alice (_id task1)
                            sample_db)))
  /\ NoDup (map _id (snd (post_tasks plain_model sample_env alice
                            [("title", JStr "new")] sample_db))).
Proof.
  assert (Hnd : NoDup (map _id sample_db))
    by (repeat constructor; simpl; intuition discriminate).
  destruct (ids_stay_unique plain_model sample_env alice (_id task1)
              [("title", JStr "renamed")] sample_db Hnd)
    as (Hput & Hdel & _).
  destruct (ids_stay_unique plain_model sample_env alice (_id task1)
              [("title", JStr "new")] sample_db Hnd)
    as (_ & _ & Hpost).
  split; [exact Hput|]. split; [exact Hdel|].
  apply Hpost. simpl. intuition discriminate.
Defined.

Lemma put_changes_one_task_witness :
  map _id (snd (put_task plain_model sample_env alice (_id task1)
                  [("title", JStr "renamed")] sample_db))
  = map _id sample_db
  /\ find (has_id (_id task3))
       (snd (put_task plain_model sample_env alice (_id task1)
               [("title", JStr "renamed")] sample_db))
     = Some task3.
Proof.
  destruct (put_changes_one_task plain_model sample_env alice (_id task1)
              [("title", JStr "renamed")] sample_db)
    as (Hids & _ & Hother).
  split; [exact Hids|].
  rewrite (Hother (_id task1) (_id task3) eq_refl ltac:(discriminate)).
  reflexivity.
Defined.

Lemma newer_first_trans : RelationClasses.Transitive newer_first.
Proof. intros a b c. unfold newer_first. lia. Qed.

(** X6.  The list that GET /api/tasks answers with is ordered by creation
    time, newest first: no task in it is older than a task after it. *)
Theorem get_tasks_newest_first (uid : string) (db : Collection) :
  exists l,
    get_tasks uid db = (respond 200 (TaskDocs l), db)
    /\ StronglySorted newer_first l.
Proof.
  exists (find_by_user uid db). split; [reflexivity|].
  apply Sorted_StronglySorted; [exact newer_first_trans|].
  apply find_by_user_sorted.
Qed.

Lemma sort_desc_newest (xs : list Task) (t : Task) :
  (forall x, In x xs -> createdAt x < createdAt t) ->
  sort_desc (xs ++ [t]) = t :: sort_desc xs.
Proof.
  induction xs as [|x xs IH]; intros Hnew; simpl; [reflexivity|].
  rewrite IH by (intros y Hy; apply Hnew; now right). simpl.
  destruct (Z.leb_spec (createdAt t) (createdAt x)) as [Hle|_];
    [|reflexivity].
  specialize (Hnew x (or_introl eq_refl)). lia.
Qed.

(** X7.  A task that POST /api/tasks has created is in the list that its
    owner then gets, together with the tasks that were there; when it is
    newer than all of them it is the first of the list, the others
    following in the order they had. *)
Theorem created_task_is_listed (M : Model) (env : Env) (uid : string)
  (body : JsObject) (db : Collection) (resp : Response) (db' : Collection) :
  post_tasks M env uid body db = (resp, db') ->
  statusCode resp = 201 ->
  exists t l l',
    json resp = TaskDoc t
    /\ get_tasks uid db = (respond 200 (TaskDocs l), db)
    /\ get_tasks uid db' = (respond 200 (TaskDocs l'), db')
    /\ Permutation l' (t :: l)
    /\ ((forall x, In x db -> user x = uid -> createdAt x < now env) ->
        l' = t :: l).
Proof.
  intros Hpost Hcode.
  destruct (post_tasks_collection M env uid body db)
    as [Hsame | (t & Hok & Hu & _ & Hnow)].
  - exfalso. rewrite Hpost in Hsame. simpl in Hsame. subst db'.
    unfold post_tasks in Hpost.
    destruct (truthy (lookup "title" body)); simpl in Hpost.
    + unfold save_new in Hpost.
      destruct (accepts M None _); simpl in Hpost.
      * apply (f_equal snd) in Hpost. simpl in Hpost.
        apply (f_equal (@List.length Task)) in Hpost.
        rewrite length_app in Hpost. simpl in Hpost. lia.
      * injection Hpost as <-. discriminate Hcode.
    + injection Hpost as <-. discriminate Hcode.
  - rewrite Hok in Hpost. injection Hpost as <- <-.
    exists t, (find_by_user uid db), (find_by_user uid (db ++ [t])).
    split; [reflexivity|]. split; [reflexivity|]. split; [reflexivity|].
    assert (Hfilter : filter (owned_by uid) (db ++ [t])
                      = filter (owned_by uid) db ++ [t]).
    { rewrite filter_app. simpl.
      now rewrite (proj2 (owned_by_iff uid t) Hu). }
    unfold find_by_user. rewrite Hfilter. split.
    + eapply perm_trans; [apply sort_desc_perm|].
      eapply perm_trans; [apply Permutation_app_comm|]. simpl.
      apply perm_skip, Permutation_sym, sort_desc_perm.
    + intros Hnewer. apply sort_desc_newest.
      intros x Hx. apply filter_In in Hx. destruct Hx as [Hin Hx].
      rewrite Hnow. apply Hnewer; [exact Hin | now apply owned_by_iff].
Qed.

Lemma created_task_is_listed_witness :
  exists t,
    json (fst (post_tasks plain_model sample_env alice
                 [("title", JStr "Water plants")] sample_db)) = TaskDoc t
    /\ fst (get_tasks alice
              (snd (post_tasks plain_model sample_env alice
                      [("title", JStr "Water plants")] sample_db)))
       = respond 200 (TaskDocs [t; task3; task1]).
Proof.
  destruct (created_task_is_listed plain_model sample_env alice
              [("title", JStr "Water plants")] sample_db
              (fst (post_tasks plain_model sample_env alice
                      [("title", JStr "Water plants")] sample_db))
              (snd (post_tasks plain_model sample_env alice
                      [("title", JStr "Water plants")] sample_db))
              (surjective_pairing _) eq_refl)
    as (t & l & l' & Hjson & Hbefore & Hafter & _ & Hfirst).
  exists t. split; [exact Hjson|].
  rewrite Hafter. simpl. f_equal. f_equal.
  rewrite Hfirst.
  - f_equal. apply (f_equal fst) in Hbefore. simpl in Hbefore.
    injection Hbefore as <-. reflexivity.
  - intros x [<- | [<- | [<- | []]]] _; reflexivity.
Defined.

(** X8.  A PUT by the owner that the schema accepts stores what the body
    gives: a truthy title, priority or status, any description that is not
    undefined (null too), any dueDate that is neither undefined nor the
    empty string; a falsy title, priority or status (0, false, null) is
    passed over like an absent one. *)
Theorem put_stores_what_is_given (M : Model) (env : Env) (uid id : string)
  (body : JsObject) (db : Collection) (task : Task) :
  findById M id db = Ok (Some task) ->
  user task = uid ->
  accepts M (Some task) (updated task body) = true ->
  exists stored,
    findById M id (snd (put_task M env uid id body db)) = Ok (Some stored)
    /\ fst (put_task M env uid id body db) = respond 200 (TaskDoc stored)
    /\ title stored
       = (if truthy (lookup "title" body) then lookup "title" body
          else title task)
    /\ priority stored
       = (if truthy (lookup "priority" body) then lookup "priority" body
          else priority task)
    /\ status stored
       = (if truthy (lookup "status" body) then lookup "status" body
          else status task)
    /\ (lookup "description" body <> JUndefined ->
        description stored = lookup "description" body)
    /\ (lookup "dueDate" body <> JUndefined ->
        lookup "dueDate" body <> JStr EmptyString ->
        dueDate stored = lookup "dueDate" body).
Proof.
  intros Hfound Hown Hacc.
  destruct (put_task_stored M env uid id body db task Hfound Hown)
    as (stored & Hstored & Hres).
  rewrite Hacc in Hres. destruct Hres as [Hresp Hwhich].
  exists stored. split; [exact Hstored|]. split; [exact Hresp|].
  assert (Hfields :
            title stored = title (updated task body)
            /\ description stored = description (updated task body)
            /\ priority stored = priority (updated task body)
            /\ dueDate stored = dueDate (updated task body)
            /\ status stored = status (updated task body))
    by (destruct Hwhich as [-> | ->]; repeat split).
  destruct Hfields as (-> & -> & -> & -> & ->).
  unfold updated, update_fields, js_or; simpl.
  repeat split.
  - intros Hd. destruct (lookup "description" body);
      [now contradiction Hd | reflexivity ..].
  - intros Hu He.
    destruct (lookup "dueDate" body) as [| | | |s| |];
      [now contradiction Hu | try reflexivity ..].
    destruct s; [now contradiction He | reflexivity].
Qed.

Lemma put_stores_what_is_given_witness :
  exists stored,
    findById plain_model (_id task1)
      (snd (put_task plain_model sample_env alice (_id task1)
              [("title", JNum 0); ("description", JNull);
               ("status", JStr "completed")] sample_db))
    = Ok (Some stored)
    /\ title stored = JStr "Buy groceries"
    /\ status stored = JStr "completed"
    /\ description stored = JNull.
Proof.
  destruct (put_stores_what_is_given plain_model sample_env alice
              (_id task1)
              [("title", JNum 0); ("description", JNull);
               ("status", JStr "completed")] sample_db task1
              eq_refl eq_refl eq_refl)
    as (stored & Hs & _ & Ht & _ & Hst & Hd & _).
  exists stored. split; [exact Hs|]. split; [exact Ht|].
  split; [exact Hst|]. apply Hd. discriminate.
Defined.

Lemma jsval_eqb_refl : forall a : jsval, jsval_eqb a a = true.
Proof.
  fix IH 1.
  intros a. destruct a as [| |x|x|x|xs|ps]; simpl.
  - reflexivity.
  - reflexivity.
  - apply Bool.eqb_reflx.
  - apply Z.eqb_refl.
  - apply String.eqb_refl.
  - induction xs as [|x xs IHxs]; [reflexivity|].
    now rewrite IH, IHxs.
  - induction ps as [|[k x] ps IHps]; [reflexivity|].
    now rewrite String.eqb_refl, IH, IHps.
Qed.

Lemma Task_eqb_refl (t : Task) : Task_eqb t t = true.
Proof.
  unfold Task_eqb.
  now rewrite !String.eqb_refl, !jsval_eqb_refl, !Z.eqb_refl.
Qed.

Lemma updated_twice (task : Task) (body : JsObject) :
  updated (updated task body) body = updated task body.
Proof.
  unfold updated, update_fields, js_or. simpl.
  f_equal.
  - destruct (truthy (lookup "title" body)); reflexivity.
  - destruct (lookup "description" body); reflexivity.
  - destruct (truthy (lookup "priority" body)); reflexivity.
  - destruct (lookup "dueDate" body) as [| | | |[|c s]| |]; reflexivity.
  - destruct (truthy (lookup "status" body)); reflexivity.
Qed.

Lemma updated_touch (env : Env) (task : Task) (body : JsObject) :
  updated (touch env task) body = touch env (updated task body).
Proof. reflexivity. Qed.

(** X9.  PUT is idempotent: when a PUT by the owner has been accepted, the
    same PUT again, which the schema accepts as well, is answered with the
    same document and leaves the collection as the first left it. *)
Theorem put_twice_is_put_once (M : Model) (env env2 : Env) (uid id : string)
  (body : JsObject) (db : Collection) (task : Task) :
  findById M id db = Ok (Some task) ->
  user task = uid ->
  accepts M (Some task) (updated task body) = true ->
  exists stored db1,
    put_task M env uid id body db = (respond 200 (TaskDoc stored), db1)
    /\ (accepts M (Some stored) stored = true ->
        put_task M env2 uid id body db1
        = (respond 200 (TaskDoc stored), db1)).
Proof.
  intros Hfound Hown Hacc.
  destruct (put_task_stored M env uid id body db task Hfound Hown)
    as (stored & Hstored & Hres).
  rewrite Hacc in Hres. destruct Hres as [Hresp Hwhich].
  exists stored, (snd (put_task M env uid id body db)).
  split; [rewrite <- Hresp; apply surjective_pairing|].
  assert (Hfix : updated stored body = stored).
  { destruct Hwhich as [-> | ->].
    - apply updated_twice.
    - rewrite updated_touch. now rewrite updated_twice. }
  assert (Hu : user stored = uid)
    by (destruct Hwhich as [-> | ->]; exact Hown).
  intros Hacc2.
  rewrite (put_task_owned M env2 uid id body _ stored Hstored Hu).
  now rewrite Hfix, Hacc2, Task_eqb_refl.
Qed.

Lemma put_twice_is_put_once_witness :
  exists stored db1,
    put_task plain_model sample_env alice (_id task1)
      [("status", JStr "completed")] sample_db
    = (respond 200 (TaskDoc stored), db1)
    /\ put_task plain_model {| now := 9000; fresh_id := "unused" |} alice
         (_id task1) [("status", JStr "completed")] db1
       = (respond 200 (TaskDoc stored), db1).
Proof.
  destruct (put_twice_is_put_once plain_model sample_env
              {| now := 9000; fresh_id := "unused" |} alice (_id task1)
              [("status", JStr "completed")] sample_db task1
              eq_refl eq_refl eq_refl)
    as (stored & db1 & Hfirst & Hagain).
  exists stored, db1. split; [exact Hfirst | apply Hagain; reflexivity].
Defined.

(* ================================================================== *)
(** * Further properties of the suggestion handler *)
(* ================================================================== *)

(** X10.  Whatever the network does, an answer of POST /api/tasks/suggest
    with a status in 200-299 is the answer 200 with suggestions that are an
    array. *)
Theorem suggest_success_is_an_array (E : Engine) (net : Network)
  (env_key : option string) (body : JsObject) :
  200 <= statusCode (fst (suggest E net env_key body)) <= 299 ->
  exists s,
    fst (suggest E net env_key body) = respond 200 (Suggestions s)
    /\ is_array s = true.
Proof.
  destruct (truthy (lookup "mainTaskTitle" body)) eqn:Htitle.
  2:{ unfold suggest, post_suggest. rewrite Htitle. simpl. lia. }
  destruct (String.eqb_spec (GEMINI_API_KEY env_key) EmptyString)
    as [Hkey|Hkey].
  { unfold suggest, post_suggest. rewrite Htitle, Hkey. simpl. lia. }
  rewrite (suggest_run E net env_key body Htitle Hkey). simpl.
  unfold settled.
  destruct (net [] _) as [r|e]; simpl; [|lia].
  destruct (resp_ok r) eqn:Hok.
  - rewrite (on_response_ok E r Hok).
    destruct (JSON_parse E (resp_text r)) as [result_|e]; simpl; [|lia].
    destruct (guarded_text E result_) as [text|].
    + destruct (JSON_parse E (ToString E text)) as [s|e]; simpl; [|lia].
      destruct (is_array s) eqn:Harr; simpl; [|lia].
      intros _. exists s. now split.
    + destruct (valid_structure E result_); simpl; lia.
  - unfold on_response. rewrite Hok. simpl.
    unfold resp_ok in Hok. intros Hrange.
    apply andb_false_iff in Hok. destruct Hok as [Hlo | Hhi].
    + apply Z.leb_gt in Hlo. lia.
    + apply Z.leb_gt in Hhi. lia.
Qed.

Lemma suggest_success_is_an_array_witness :
  exists s,
    fst (suggest core_engine (answering (ok_with gemini_text)) sample_key
           sample_suggest_body) = respond 200 (Suggestions s)
    /\ is_array s = true.
Proof.
  apply (suggest_success_is_an_array core_engine
           (answering (ok_with gemini_text)) sample_key
           sample_suggest_body).
  vm_compute. split; discriminate.
Defined.

(* ================================================================== *)
(** * The server's gate on origins *)
(* ================================================================== *)

Lemma indexOf_from_found (i : Z) (l : list string) (x : string) :
  0 <= i ->
  (indexOf_from i l x = -1 <-> ~ In x l)
  /\ (In x l -> i <= indexOf_from i l x < i + Z.of_nat (List.length l)).
Proof.
  revert i. induction l as [|y l IH]; intros i Hi; simpl.
  - split; [tauto | intros []].
  - destruct (String.eqb_spec y x) as [->|Hne].
    + split; [|intros _; lia].
      split; [lia | intros H; exfalso; apply H; now left].
    + destruct (IH (i + 1) ltac:(lia)) as [Hiff Hrange].
      split.
      * rewrite Hiff. tauto.
      * intros [Heq | Hin]; [contradiction|].
        specialize (Hrange Hin). lia.
Qed.

(** X11.  The server lets a request through exactly when it carries no
    Origin, an empty one, or one that is, letter for letter, among the
    three allowed origins; a request with any other origin is answered by
    the error handler: 500 "Server Error" with the CORS policy message as
    details.  The details that the error handler sends are never empty. *)
Theorem origin_gate_allows (origin : option string) :
  (origin_gate origin = None
   <-> match origin with
       | None => True
       | Some o => o = EmptyString \/ In o allowedOrigins
       end)
  /\ (origin_gate origin <> None ->
      origin_gate origin
      = Some (respond 500
                (MsgDetails "Server Error"
                   "The CORS policy for this site does not allow access from the specified Origin.")))
  /\ forall err msg details,
       error_handler err = respond 500 (MsgDetails msg details) ->
       msg = "Server Error" /\ details <> EmptyString.
Proof.
  split; [|split].
  - unfold origin_gate, cors_origin, truthy.
    destruct origin as [o|]; [|tauto].
    rewrite negb_involutive.
    destruct (String.eqb_spec o EmptyString) as [->|Hne]; [tauto|].
    destruct (indexOf_from_found 0 allowedOrigins o ltac:(lia))
      as [Hiff _].
    fold (indexOf allowedOrigins o) in Hiff.
    destruct (Z.eqb_spec (indexOf allowedOrigins o) (-1)) as [Hidx|Hidx].
    + split; [discriminate|].
      intros [Hempty | Hin]; [contradiction|].
      exfalso. now apply Hiff.
    + split; [|reflexivity]. intros _. right.
      destruct (in_dec string_dec o allowedOrigins) as [Hin|Hnot];
        [exact Hin|].
      exfalso. apply Hidx. now apply Hiff.
  - unfold origin_gate, cors_origin.
    destruct origin as [o|]; [|intros H; now contradiction H].
    destruct (negb (truthy (JStr o))); [intros H; now contradiction H|].
    destruct (indexOf allowedOrigins o =? -1);
      [reflexivity | intros H; now contradiction H].
  - intros err msg details. unfold error_handler, respond.
    intros Heq. injection Heq as <- <-. split; [reflexivity|].
    simpl. destruct (String.eqb_spec (message err) EmptyString) as [->|Hne];
      simpl; [discriminate | exact Hne].
Qed.

Lemma origin_gate_allows_witness :
  origin_gate (Some "http://localhost:5173") = None
  /\ origin_gate (Some "http://localhost:5173/")
     = Some (respond 500
               (MsgDetails "Server Error"
                  "The CORS policy for this site does not allow access from the specified Origin.")).
Proof.
  split.
  - apply (proj1 (origin_gate_allows (Some "http://localhost:5173"))).
    right. simpl. tauto.
  - apply (proj1 (proj2 (origin_gate_allows
                           (Some "http://localhost:5173/")))).
    discriminate.
Defined.

(* ================================================================== *)
(** * The sign-in form *)
(* ================================================================== *)

Lemma trim_start_all_space (s : string) :
  if all_space s then trim_start s = EmptyString
  else exists c r, trim_start s = String c r /\ is_space c = false.
Proof.
  induction s as [|c s IH]; simpl; [reflexivity|].
  destruct (is_space c) eqn:Hc; simpl; [exact IH|].
  exists c, s. now split.
Qed.

Lemma trim_end_nonspace (c : ascii) (r : string) :
  is_space c = false -> trim_end (String c r) <> EmptyString.
Proof.
  intros Hc. simpl. destruct (trim_end r); [now rewrite Hc | discriminate].
Qed.

(** [!s.trim()] holds of the strings that are white space throughout. *)
Lemma blank_all_space (s : string) : blank s = all_space s.
Proof.
  unfold blank, trim. simpl. rewrite negb_involutive.
  pose proof (trim_start_all_space s) as H.
  destruct (all_space s).
  - now rewrite H.
  - destruct H as (c & r & -> & Hc).
    apply String.eqb_neq. now apply trim_end_nonspace.
Qed.

(** The two ways of a submit. *)
Lemma submit_cases (E : Engine) (net : Network) (API_BASE_URL : string)
  (st : FormState) :
  if form_valid st then
    submit E net API_BASE_URL st
    = (submit_start
         ++ submit_settled E st
              (net [] (if isLogin st then login_request API_BASE_URL st
                       else register_request API_BASE_URL st)),
       [if isLogin st then login_request API_BASE_URL st
        else register_request API_BASE_URL st])
  else
    exists msg,
      submit E net API_BASE_URL st = (submit_refused msg, [])
      /\ msg <> EmptyString.
Proof.
  unfold form_valid, submit, handleSubmit.
  rewrite !blank_all_space.
  destruct (all_space (email st)); simpl;
    [eexists; split; [reflexivity | discriminate]|].
  destruct (all_space (password st)); simpl;
    [eexists; split; [reflexivity | discriminate]|].
  destruct (isLogin st); simpl; [reflexivity|].
  destruct (all_space (username st)); simpl;
    [eexists; split; [reflexivity | discriminate]|].
  destruct (all_space (confirmPassword st)); simpl;
    [eexists; split; [reflexivity | discriminate]|].
  destruct (String.eqb (password st) (confirmPassword st)); simpl;
    [reflexivity | eexists; split; [reflexivity | discriminate]].
Qed.



Lemma js_or_truthy (a b : jsval) : truthy b = true -> truthy (js_or a b) = true.
Proof. intros Hb. unfold js_or. destruct (truthy a) eqn:Ha; assumption. Qed.

(** X13.  Every submit ends with the form not loading and a message on
    display, of type success or error; it makes at most one request; and
    the type is success only when a request was made and answered with a
    status in 200-299. *)
Theorem submit_always_settles (E : Engine) (net : Network)
  (API_BASE_URL : string) (st : FormState) :
  let st' := apply_effects st (fst (submit E net API_BASE_URL st)) in
  isLoading st' = false
  /\ truthy (form_message st') = true
  /\ (messageType st' = "success" \/ messageType st' = "error")
  /\ (List.length (snd (submit E net API_BASE_URL st)) <= 1)%nat
  /\ (messageType st' = "success" ->
      exists rq r,
        snd (submit E net API_BASE_URL st) = [rq]
        /\ net [] rq = Ok r /\ resp_ok r = true).
Proof.
  pose proof (submit_cases E net API_BASE_URL st) as Hcases.
  destruct (form_valid st).
  2:{ destruct Hcases as (msg & -> & Hmsg). simpl.
      apply String.eqb_neq in Hmsg. rewrite Hmsg.
      repeat split; try reflexivity; try lia; [now right | discriminate]. }
  rewrite Hcases. cbv zeta. cbn [fst snd List.length].
  set (rq := if isLogin st then login_request API_BASE_URL st
             else register_request API_BASE_URL st).
  destruct (net [] rq) as [r|e] eqn:Hnet.
  2:{ simpl. repeat split; try reflexivity; try lia;
        [now right | discriminate]. }
  unfold submit_settled, submit_try.
  destruct (JSON_parse E (resp_text r)) as [data|e].
  2:{ simpl. repeat split; try reflexivity; try lia;
        [now right | discriminate]. }
  destruct (resp_ok r) eqn:Hok.
  - assert (Hwhy : exists rq0 r0,
               [rq] = [rq0] /\ net [] rq0 = Ok r0 /\ resp_ok r0 = true)
      by (exists rq, r; repeat split; assumption).
    destruct (isLogin st) eqn:Hmode.
    + destruct data; simpl;
        (repeat split; try reflexivity; try lia;
         [first [now left | now right] | intros _; exact Hwhy]).
    + simpl. repeat split; try reflexivity; try lia;
        [now left | intros _; exact Hwhy].
  - destruct (isLogin st); destruct data; simpl;
      repeat split; try reflexivity; try lia; try (now right);
      try discriminate; apply js_or_truthy; reflexivity.
Qed.

Lemma submit_always_settles_witness :
  messageType
    (apply_effects login_form
       (fst (submit core_engine (answering (ok_with login_ok_text))
               api_base login_form))) = "success"
  /\ exists rq r,
       snd (submit core_engine (answering (ok_with login_ok_text))
              api_base login_form) = [rq]
       /\ answering (ok_with login_ok_text) [] rq = Ok r
       /\ resp_ok r = true.
Proof.
  destruct (submit_always_settles core_engine
              (answering (ok_with login_ok_text)) api_base login_form)
    as (_ & _ & _ & _ & Hwhy).
  split; [reflexivity | apply Hwhy; reflexivity].
Defined.




